(** * adomcp: an MCP server over SSE for Azure DevOps, and its URL parser

  A shallow embedding of [mcp/server.go] (the router [ServeHTTP], the
  JSON-RPC dispatcher [processRequest], the request receiver
  [handleMessage], the streaming transport [handleSSE]), of
  [azuredevops/parser.go] ([ParseURL]), of [azuredevops/client.go] (the
  client and its six operations) and of [main.go] (the six tools and
  their registration), with the parts of the Go standard library these
  functions call ([strings], [strconv], [net/url], [encoding/json],
  [encoding/base64]) modelled next to them.

  Go strings are byte strings: [string] here, one [ascii] per byte.
  Go's [int] is taken to be 64 bits wide. *)

From Stdlib Require Import ZArith String Ascii List Bool Lia DecimalString.
From Stdlib Require Import Floats.PrimFloat.
From Stdlib Require Uint63.
From stdpp Require Import gmap strings list fin_maps relations.

Set Warnings "-register-all".
Local Open Scope string_scope.
Local Open Scope list_scope.
Local Open Scope Z_scope.

(** Go's [(T, error)] results; an [error] is represented by its message
  ([err.Error()]). *)
Inductive result (A : Type) : Type :=
| Ok (a : A)
| Err (msg : string).
Arguments Ok {A} a.
Arguments Err {A} msg.

Definition byte (n : nat) : ascii := ascii_of_nat n.
Definition code (c : ascii) : Z := Z.of_nat (nat_of_ascii c).

(** ** Package [strings] *)
Module GoStrings.

(** [strings.HasPrefix(s, prefix)]. *)
Fixpoint HasPrefix (s prefix : string) : bool :=
  match prefix, s with
  | EmptyString, _ => true
  | String p prefix', String c s' => Ascii.eqb p c && HasPrefix s' prefix'
  | String _ _, EmptyString => false
  end.

(** Drops the first [n] bytes: [s[n:]] (everything when [s] is shorter). *)
Fixpoint skip (n : nat) (s : string) : string :=
  match n, s with
  | O, _ => s
  | S n', String _ s' => skip n' s'
  | S _, EmptyString => EmptyString
  end.

(** [strings.Cut(s, sep)]: the text before and after the first (leftmost)
    occurrence of [sep], [None] when [sep] does not occur. *)
Fixpoint Cut (s sep : string) : option (string * string) :=
  if HasPrefix s sep then Some (EmptyString, skip (String.length sep) s)
  else
    match s with
    | EmptyString => None
    | String c s' =>
        match Cut s' sep with
        | Some (before, after) => Some (String c before, after)
        | None => None
        end
    end.

(** [strings.Contains(s, substr)]. *)
Definition Contains (s substr : string) : bool :=
  match Cut s substr with Some _ => true | None => false end.

(** [strings.Split(s, sep)] for a non-empty [sep]: [s] is cut at the
    successive leftmost occurrences of [sep].  Each cut removes at least
    one byte, so [String.length s] rounds are enough. *)
Fixpoint Split_rounds (n : nat) (s sep : string) : list string :=
  match n with
  | O => [s]
  | S n' =>
      match Cut s sep with
      | Some (before, after) => before :: Split_rounds n' after sep
      | None => [s]
      end
  end.

Definition Split (s sep : string) : list string :=
  Split_rounds (String.length s) s sep.

(** Does byte [c] occur in [cutset]? *)
Fixpoint inCutset (c : ascii) (cutset : string) : bool :=
  match cutset with
  | EmptyString => false
  | String d cutset' => Ascii.eqb c d || inCutset c cutset'
  end.

(** [strings.TrimRight(s, cutset)] for a cutset of ASCII bytes: all
    trailing bytes of [s] that are in [cutset] are removed. *)
Fixpoint TrimRight (s cutset : string) : string :=
  match s with
  | EmptyString => EmptyString
  | String c s' =>
      match TrimRight s' cutset with
      | EmptyString => if inCutset c cutset then EmptyString else String c EmptyString
      | t => String c t
      end
  end.

End GoStrings.

(** ** Package [strconv] *)
Module GoStrconv.

Definition minInt : Z := - 2 ^ 63.
Definition maxInt : Z := 2 ^ 63 - 1.

Definition digit (c : ascii) : option Z :=
  if (48 <=? code c) && (code c <=? 57) then Some (code c - 48) else None.

Fixpoint digits (s : string) (acc : Z) : option Z :=
  match s with
  | EmptyString => Some acc
  | String c s' =>
      match digit c with
      | Some d => digits s' (acc * 10 + d)
      | None => None
      end
  end.

(** [strconv.Atoi(s)]: an optional sign, then one or more decimal digits
    and nothing else; [None] stands for a non-nil error ([ErrSyntax], or
    [ErrRange] when the value does not fit an [int]). *)
Definition Atoi (s : string) : option Z :=
  let '(neg, body) :=
    match s with
    | String c s' =>
        if Ascii.eqb c "-" then (true, s')
        else if Ascii.eqb c "+" then (false, s')
        else (false, s)
    | EmptyString => (false, s)
    end in
  match body with
  | EmptyString => None
  | _ =>
      match digits body 0 with
      | Some n =>
          let v := if neg then - n else n in
          if (minInt <=? v) && (v <=? maxInt) then Some v else None
      | None => None
      end
  end.

End GoStrconv.

(** ** Package [net/url] *)
Module GoURL.
Import GoStrings.

Definition ishex (c : ascii) : bool :=
  ((48 <=? code c) && (code c <=? 57))
  || ((97 <=? code c) && (code c <=? 102))
  || ((65 <=? code c) && (code c <=? 70)).

Definition unhex (c : ascii) : Z :=
  if (48 <=? code c) && (code c <=? 57) then code c - 48
  else if (97 <=? code c) && (code c <=? 102) then code c - 97 + 10
  else if (65 <=? code c) && (code c <=? 70) then code c - 65 + 10
  else 0.

(** [url.QueryUnescape(s)]: every [%XX] becomes the byte it names and
    every [+] a space; a [%] not followed by two hex digits is an error
    (an [EscapeError], its message shortened here). *)
Fixpoint QueryUnescape (s : string) : result string :=
  match s with
  | EmptyString => Ok EmptyString
  | String c s' =>
      if Ascii.eqb c "%" then
        match s' with
        | String a (String b s'') =>
            if ishex a && ishex b then
              match QueryUnescape s'' with
              | Ok t => Ok (String (byte (Z.to_nat (unhex a * 16 + unhex b))) t)
              | Err e => Err e
              end
            else Err "invalid URL escape"
        | _ => Err "invalid URL escape"
        end
      else
        match QueryUnescape s' with
        | Ok t => Ok (String (if Ascii.eqb c "+" then " "%char else c) t)
        | Err e => Err e
        end
  end.

(** [url.URL], the two fields the program reads: the decoded path and
    the raw query string (without the [?]). *)
Record URL : Type := { Path : string; RawQuery : string }.

(** [url.Values]: the (key, value) pairs in the order of the query
    string; the values of one key keep their order. *)
Definition Values : Type := list (string * string).

(** One [key=value] piece of a query string, as the loop body of
    [url.parseQuery] treats it (Go 1.17 and later): pieces with a
    semicolon, empty pieces and pieces that do not unescape are dropped. *)
Definition parsePair (piece : string) : option (string * string) :=
  if Contains piece ";" then None
  else if String.eqb piece "" then None
  else
    let '(key, value) :=
      match Cut piece "=" with
      | Some (k, v) => (k, v)
      | None => (piece, EmptyString)
      end in
    match QueryUnescape key, QueryUnescape value with
    | Ok k, Ok v => Some (k, v)
    | _, _ => None
    end.

(** [url.ParseQuery(query)] with its error dropped: [parseQuery] cuts
    [query] at each [&] and appends the pairs that parse. *)
Definition ParseQuery (query : string) : Values :=
  omap parsePair (Split query "&").

(** [u.Query()]. *)
Definition Query (u : URL) : Values := ParseQuery (RawQuery u).

(** [v.Get(key)]: the first value of [key], or the empty string. *)
Fixpoint Get (v : Values) (key : string) : string :=
  match v with
  | [] => EmptyString
  | (k, x) :: v' => if String.eqb k key then x else Get v' key
  end.

End GoURL.


(** ** Package [azuredevops]: [parser.go] *)
Module azuredevops.
Import GoStrings GoStrconv GoURL.

Inductive ResourceType : Type :=
| ResourceUnknown
| ResourceBuild
| ResourceRelease.

(** [ParsedResource]; the field [Type] is [Type_] here. *)
Record ParsedResource : Type :=
  { Type_ : ResourceType; Project : string; ID : Z }.

Definition errNoResource : string :=
  "could not parse build or release info from URL".

Section Parser.

(** [url.Parse]: the library's URL parser, with the [url.URL] it returns. *)
Variable url_Parse : string -> result URL.

(** [ParseURL(rawURL)].  Each nested [if] of the source that does not
    return falls through to the code after it, so the build block is an
    [option] and [None] continues with the release block. *)
Definition ParseURL (rawURL : string) : result ParsedResource :=
  match url_Parse rawURL with
  | Err err => Err err
  | Ok u =>
      let q := Query u in
      let build : option ParsedResource :=
        if Contains (Path u) "/_build" then
          let buildIdStr := Get q "buildId" in
          if negb (String.eqb buildIdStr "") then
            match Atoi buildIdStr with
            | Some bid =>
                match Split (Path u) "/_build" with
                | part0 :: _ =>
                    let prefix := TrimRight part0 "/" in
                    let pathParts := Split prefix "/" in
                    match last pathParts with
                    | Some project =>
                        let project :=
                          match QueryUnescape project with
                          | Ok p => p
                          | Err _ => EmptyString
                          end in
                        Some {| Type_ := ResourceBuild; Project := project; ID := bid |}
                    | None => None
                    end
                | [] => None
                end
            | None => None
            end
          else None
        else None in
      match build with
      | Some r => Ok r
      | None =>
          let release : option ParsedResource :=
            if Contains (Path u) "/_release" then
              let releaseIdStr := Get q "releaseId" in
              if negb (String.eqb releaseIdStr "") then
                match Atoi releaseIdStr with
                | Some rid =>
                    match Split (Path u) "/_release" with
                    | part0 :: _ =>
                        let prefix := TrimRight part0 "/" in
                        let pathParts := Split prefix "/" in
                        match last pathParts with
                        | Some project =>
                            let project :=
                              match QueryUnescape project with
                              | Ok p => p
                              | Err _ => EmptyString
                              end in
                            Some {| Type_ := ResourceRelease; Project := project; ID := rid |}
                        | None => None
                        end
                    | [] => None
                    end
                | None => None
                end
              else None
            else None in
          match release with
          | Some r => Ok r
          | None => Err errNoResource
          end
      end
  end.

End Parser.

(** *** The words of the specification of [ParseURL] *)

(** The text of [s] after its last slash; all of [s] when it has none. *)
Fixpoint afterLastSlash (s : string) : option string :=
  match s with
  | EmptyString => None
  | String c s' =>
      match afterLastSlash s' with
      | Some t => Some t
      | None => if Ascii.eqb c "/" then Some s' else None
      end
  end.

Definition lastSegment (s : string) : string :=
  match afterLastSlash s with Some t => t | None => s end.

(** "The last path segment preceding the marker": of the path up to the
    first occurrence of [marker], without its trailing slashes, the last
    segment. *)
Definition segmentBefore (path marker : string) : string :=
  match Cut path marker with
  | Some (before, _) => lastSegment (TrimRight before "/")
  | None => EmptyString
  end.

(** "URL-unescaped": the string [url.QueryUnescape] returns, which is
    empty when it returns an error. *)
Definition unescaped (s : string) : string :=
  match QueryUnescape s with
  | Ok p => p
  | Err _ => EmptyString
  end.

(** The path has the marker and the query parameter [key] is the integer [n]. *)
Definition marked (u : URL) (marker key : string) (n : Z) : Prop :=
  Contains (Path u) marker = true /\ Atoi (Get (Query u) key) = Some n.

(** One block of [ParseURL] (lines 35-63, and again lines 68-91), with
    its marker, query parameter and resource type as parameters. *)
Definition block (ty : ResourceType) (marker key : string) (u : URL)
  : option ParsedResource :=
  if Contains (Path u) marker then
    let idStr := Get (Query u) key in
    if negb (String.eqb idStr "") then
      match Atoi idStr with
      | Some id =>
          match Split (Path u) marker with
          | part0 :: _ =>
              match last (Split (TrimRight part0 "/") "/") with
              | Some project =>
                  Some {| Type_ := ty;
                          Project := match QueryUnescape project with
                                     | Ok p => p
                                     | Err _ => EmptyString
                                     end;
                          ID := id |}
              | None => None
              end
          | [] => None
          end
      | None => None
      end
    else None
  else None.

(** [url.Parse] on three URLs, for trying [ParseURL]. *)
Definition sampleParse (rawURL : string) : result URL :=
  if String.eqb rawURL
       "https://ado.example.com/DefaultCollection/My%20Project/_build/results?buildId=42&view=logs"
  then Ok {| Path := "/DefaultCollection/My Project/_build/results";
             RawQuery := "buildId=42&view=logs" |}
  else if String.eqb rawURL
       "https://ado.example.com/DefaultCollection/Shop/_release?_a=release-summary&releaseId=7"
  then Ok {| Path := "/DefaultCollection/Shop/_release";
             RawQuery := "_a=release-summary&releaseId=7" |}
  else if String.eqb rawURL
       "https://ado.example.com/DefaultCollection/Sales%25/_build/results?buildId=5"
  then Ok {| Path := "/DefaultCollection/Sales%/_build/results";
             RawQuery := "buildId=5" |}
  else Err "parse error".

End azuredevops.


(** ** Package [encoding/json] *)
Module GoJSON.

(** A JSON text, parsed.  Object members keep their order and their
    duplicates.  A number token is represented by what
    [strconv.ParseFloat(token, 64)] makes of it: the [float64] it rounds
    to, or [None] when it is out of range (such as [1e999]). *)
Inductive json : Type :=
| JNull
| JBool (b : bool)
| JNumber (f : option float)
| JString (s : string)
| JArray (elems : list json)
| JObject (members : list (string * json)).

(** The Go values [encoding/json] stores in an [interface{}]: [nil],
    [bool], [float64], [string], [[]interface{}], [map[string]interface{}]. *)
Inductive value : Type :=
| VNil
| VBool (b : bool)
| VFloat64 (f : float)
| VString (s : string)
| VSlice (elems : list value)
| VMap (m : gmap string value).

(** [json.RawMessage]: the bytes of one JSON text, or no bytes at all. *)
Definition RawMessage : Type := option json.

(** Decoding into an [interface{}].  [None] stands for a non-nil error:
    the only one possible here is a number out of range.  In an object a
    later member with the same key replaces the earlier one. *)
Fixpoint toInterface (j : json) : option value :=
  match j with
  | JNull => Some VNil
  | JBool b => Some (VBool b)
  | JNumber f => VFloat64 <$> f
  | JString s => Some (VString s)
  | JArray elems =>
      VSlice <$>
        (fix go (l : list json) : option (list value) :=
           match l with
           | [] => Some []
           | x :: l' =>
               match toInterface x, go l' with
               | Some v, Some vs => Some (v :: vs)
               | _, _ => None
               end
           end) elems
  | JObject members =>
      VMap <$>
        (fix go (l : list (string * json)) (acc : gmap string value)
           : option (gmap string value) :=
           match l with
           | [] => Some acc
           | (k, x) :: l' =>
               match toInterface x with
               | Some v => go l' (<[k := v]> acc)
               | None => None
               end
           end) members ∅
  end.

(** The members of a JSON object stored into a [map[string]interface{}]
    that already holds [acc]. *)
Fixpoint objectInto (l : list (string * json)) (acc : gmap string value)
  : option (gmap string value) :=
  match l with
  | [] => Some acc
  | (k, x) :: l' =>
      match toInterface x with
      | Some v => objectInto l' (<[k := v]> acc)
      | None => None
      end
  end.

(** Storing a JSON value into a field of type [string]: a string is
    stored, [null] leaves the field as it is, anything else is an
    [UnmarshalTypeError]. *)
Definition storeString (j : json) (old : string) : option string :=
  match j with
  | JString s => Some s
  | JNull => Some old
  | _ => None
  end.

(** Storing into a field of type [map[string]interface{}]: [null] makes
    the map nil, an object is added to the map the field holds (a new one
    when it is nil), anything else is an [UnmarshalTypeError]. *)
Definition storeMap (j : json) (old : option (gmap string value))
  : option (option (gmap string value)) :=
  match j with
  | JNull => Some None
  | JObject members => Some <$> objectInto members (default ∅ old)
  | _ => None
  end.

Definition upper (c : ascii) : ascii :=
  if (97 <=? code c) && (code c <=? 122) then byte (Z.to_nat (code c - 32)) else c.

(** [foldName]: the key under which a member name is matched to a struct
    field when no field has exactly that name.  ASCII letters are put in
    upper case; the two other runes whose case orbit has an ASCII letter,
    U+017F (bytes 197 191, with S) and U+212A (bytes 226 132 170, with K),
    become that letter.  Other bytes are kept, which decides equality with
    the fold of an ASCII field name as Go does. *)
Fixpoint foldName (s : string) : string :=
  match s with
  | EmptyString => EmptyString
  | String c s' =>
      match s' with
      | String d s'' =>
          if (code c =? 197) && (code d =? 191) then String "S" (foldName s'')
          else
            match s'' with
            | String e s''' =>
                if (code c =? 226) && (code d =? 132) && (code e =? 170)
                then String "K" (foldName s''')
                else String (upper c) (foldName s')
            | EmptyString => String (upper c) (foldName s')
            end
      | EmptyString => String (upper c) (foldName s')
      end
  end.

(** Does the member name [key] select the struct field tagged [field]? *)
Definition selects (key field : string) : bool :=
  String.eqb (foldName key) (foldName field).

(** The members of an object stored one after the other into a struct
    [t]; [store key v t] is the struct after the member [key: v], or
    [None] for an error.  (Go decodes the remaining members after an
    error and returns the first error; only the error is observed here.) *)
Fixpoint storeMembers {T : Type} (store : string -> json -> T -> option T)
  (l : list (string * json)) (t : T) : option T :=
  match l with
  | [] => Some t
  | (k, x) :: l' =>
      match store k x t with
      | Some t' => storeMembers store l' t'
      | None => None
      end
  end.

(** [json.Unmarshal(data, &t)] and [json.NewDecoder(r).Decode(&t)] for a
    struct [t]: no JSON text is a syntax error, [null] leaves [t] as it
    is, an object is stored member by member, any other value is an
    [UnmarshalTypeError]. *)
Definition Unmarshal {T : Type} (store : string -> json -> T -> option T)
  (data : RawMessage) (t : T) : option T :=
  match data with
  | None => None
  | Some JNull => Some t
  | Some (JObject members) => storeMembers store members t
  | Some _ => None
  end.

End GoJSON.


(** ** Package [mcp]: [server.go], with the protocol data types *)
Module mcp.
Import GoStrings GoURL GoJSON.

(** *** Protocol data types

    Rocq has one name space for the fields of all records of a module:
    the fields [JSONRPC] and [ID] of [JSONRPCRequest] are [ReqJSONRPC] and
    [ReqID], the field [Name] of [Tool] is [ToolName], the fields [Type]
    of [Content] and [Content] of [CallToolResult] are [ContentType] and
    [ResultContent]. *)

Record JSONRPCRequest : Type :=
  { ReqJSONRPC : string;
    Method : string;
    Params : RawMessage;
    ReqID : value }.

Record JSONRPCError : Type :=
  { Code : Z;
    Message : string;
    Data : value }.

Record Tool : Type :=
  { ToolName : string;
    Description : string;
    InputSchema : value }.

(** [Arguments] is [None] for a nil map. *)
Record CallToolRequest : Type :=
  { Name : string;
    Arguments : option (gmap string value) }.

Record Content : Type :=
  { ContentType : string;
    Text : string }.

Record CallToolResult : Type :=
  { ResultContent : list Content;
    IsError : bool }.

(** What [processRequest] assigns to the field [Result interface{}]. *)
Inductive ResultValue : Type :=
| ToolsListed (tools : list Tool)
    (** [map[string]interface{}{"tools": tools}] *)
| ToolFailed (r : CallToolResult)
    (** a [CallToolResult] value *)
| ToolReturned (r : option CallToolResult)
    (** the handler's [*CallToolResult], [None] for a nil pointer *)
| Initialized (v : value)
    (** the [map[string]interface{}] of the [initialize] branch *).

(** [Result] and [Error] are [None] when nil: with [omitempty] the member
    is then left out of the marshaled text, and written otherwise (a
    [ToolReturned None] is written as [null]). *)
Record JSONRPCResponse : Type :=
  { JSONRPC : string;
    Result : option ResultValue;
    Error : option JSONRPCError;
    ID : value }.

(** [ToolHandler]: the pair it returns, each part [None] when nil. *)
Abbreviation ToolHandler :=
  (option (gmap string value) -> option CallToolResult * option string)%type.

(** [Server] without [sessions], which the transport below carries. *)
Record Server : Type :=
  { Tools : gmap string Tool;
    Handlers : gmap string ToolHandler }.

Definition NewServer : Server := {| Tools := ∅; Handlers := ∅ |}.

Definition RegisterTool (s : Server) (tool : Tool) (handler : ToolHandler) : Server :=
  {| Tools := <[ToolName tool := tool]> (Tools s);
     Handlers := <[ToolName tool := handler]> (Handlers s) |}.

(** *** Decoding the two request structs *)

(** One member of the [tools/call] parameters stored into a
    [CallToolRequest]; members that select no field are skipped. *)
Definition storeCallToolRequest (key : string) (v : json) (c : CallToolRequest)
  : option CallToolRequest :=
  if selects key "name" then
    name ← storeString v (Name c);
    Some {| Name := name; Arguments := Arguments c |}
  else if selects key "arguments" then
    arguments ← storeMap v (Arguments c);
    Some {| Name := Name c; Arguments := arguments |}
  else Some c.

(** One member of the request body stored into a [JSONRPCRequest].
    [Params] is a [json.RawMessage] and takes any value, [null] included. *)
Definition storeJSONRPCRequest (key : string) (v : json) (r : JSONRPCRequest)
  : option JSONRPCRequest :=
  if selects key "jsonrpc" then
    s ← storeString v (ReqJSONRPC r);
    Some {| ReqJSONRPC := s; Method := Method r; Params := Params r; ReqID := ReqID r |}
  else if selects key "method" then
    s ← storeString v (Method r);
    Some {| ReqJSONRPC := ReqJSONRPC r; Method := s; Params := Params r; ReqID := ReqID r |}
  else if selects key "params" then
    Some {| ReqJSONRPC := ReqJSONRPC r; Method := Method r; Params := Some v; ReqID := ReqID r |}
  else if selects key "id" then
    id ← toInterface v;
    Some {| ReqJSONRPC := ReqJSONRPC r; Method := Method r; Params := Params r; ReqID := id |}
  else Some r.

(** [var callReq CallToolRequest; json.Unmarshal(data, &callReq)]. *)
Definition UnmarshalCallToolRequest (data : RawMessage) : option CallToolRequest :=
  Unmarshal storeCallToolRequest data {| Name := EmptyString; Arguments := None |}.

(** [var req JSONRPCRequest; json.NewDecoder(r.Body).Decode(&req)];
    [body] is the first JSON text of the body, [None] when it has none. *)
Definition DecodeJSONRPCRequest (body : option json) : option JSONRPCRequest :=
  Unmarshal storeJSONRPCRequest body
    {| ReqJSONRPC := EmptyString; Method := EmptyString; Params := None; ReqID := VNil |}.

(** *** The dispatcher *)

(** What one run of [processRequest] does: the handlers it calls, with
    their arguments, and the response it marshals and sends on [msgChan]
    (lines 178-179), [None] when it returns without sending. *)
Record Dispatch : Type :=
  { calls : list (string * option (gmap string value));
    sent : option JSONRPCResponse }.

Definition withResult (response : JSONRPCResponse) (r : ResultValue) : JSONRPCResponse :=
  {| JSONRPC := JSONRPC response; Result := Some r;
     Error := Error response; ID := ID response |}.

Definition withError (response : JSONRPCResponse) (e : JSONRPCError) : JSONRPCResponse :=
  {| JSONRPC := JSONRPC response; Result := Result response;
     Error := Some e; ID := ID response |}.

Definition initializeResult : value :=
  VMap (<["protocolVersion" := VString "2024-11-05"]>
       (<["capabilities" := VMap {["tools" := VMap ∅]}]>
       {["serverInfo" :=
           VMap (<["name" := VString "adomcp"]> {["version" := VString "1.0.0"]})]})).

(** [processRequest(req, msgChan)].  The tools of [tools/list] come in
    the order of [map_to_list]; Go ranges over the map in no fixed order. *)
Definition processRequest (s : Server) (req : JSONRPCRequest) : Dispatch :=
  let response :=
    {| JSONRPC := "2.0"; Result := None; Error := None; ID := ReqID req |} in
  if String.eqb (Method req) "tools/list" then
    let tools := (map_to_list (Tools s)).*2 in
    {| calls := []; sent := Some (withResult response (ToolsListed tools)) |}
  else if String.eqb (Method req) "tools/call" then
    match UnmarshalCallToolRequest (Params req) with
    | None =>
        {| calls := [];
           sent := Some (withError response
                           {| Code := -32602; Message := "Invalid params"; Data := VNil |}) |}
    | Some callReq =>
        match Handlers s !! Name callReq with
        | None =>
            {| calls := [];
               sent := Some (withError response
                               {| Code := -32601; Message := "Method not found"; Data := VNil |}) |}
        | Some handler =>
            let '(result, err) := handler (Arguments callReq) in
            let response :=
              match err with
              | Some msg =>
                  withResult response
                    (ToolFailed
                       {| ResultContent := [{| ContentType := "text"; Text := msg |}];
                          IsError := true |})
              | None => withResult response (ToolReturned result)
              end in
            {| calls := [(Name callReq, Arguments callReq)]; sent := Some response |}
        end
    end
  else if String.eqb (Method req) "initialize" then
    {| calls := []; sent := Some (withResult response (Initialized initializeResult)) |}
  else if String.eqb (Method req) "notifications/initialized" then
    {| calls := []; sent := None |}
  else
    {| calls := [];
       sent := Some (withError response
                       {| Code := -32601;
                          Message := "Method not found: " +:+ Method req;
                          Data := VNil |}) |}.

(** The members [json.Marshal] writes for a response, by the [omitempty]
    tags of [JSONRPCResponse]. *)
Definition hasResult (r : JSONRPCResponse) : bool :=
  match Result r with Some _ => true | None => false end.

Definition hasError (r : JSONRPCResponse) : bool :=
  match Error r with Some _ => true | None => false end.

(** *** The request receiver *)

Definition nl : string := String (byte 10) EmptyString.

(** An HTTP request as [handleMessage] reads it. *)
Record Request : Type :=
  { HTTPMethod : string;
    RequestURL : URL;
    Body : option json }.

(** What is written to the [http.ResponseWriter]. *)
Record Response : Type :=
  { StatusCode : Z;
    ResponseBody : string }.

(** [http.Error(w, msg, code)]. *)
Definition http_Error (msg : string) (code : Z) : Response :=
  {| StatusCode := code; ResponseBody := msg +:+ nl |}.

(** A [chan string], by its identity. *)
Definition Chan : Type := nat.

(** [handleMessage(w, r)] over the session directory [s.sessions]: the
    response, and the goroutine [go s.processRequest(req, msgChan)] when
    one is started. *)
Definition handleMessage (sessions : gmap string Chan) (r : Request)
  : Response * option (JSONRPCRequest * Chan) :=
  if negb (String.eqb (HTTPMethod r) "POST") then
    (http_Error "Method not allowed" 405, None)
  else
    let sessionID := Get (Query (RequestURL r)) "sessionId" in
    if String.eqb sessionID "" then
      (http_Error "Missing sessionId" 400, None)
    else
      match sessions !! sessionID with
      | None => (http_Error "Session not found" 404, None)
      | Some msgChan =>
          match DecodeJSONRPCRequest (Body r) with
          | None => (http_Error "Invalid JSON" 400, None)
          | Some req =>
              ({| StatusCode := 202; ResponseBody := EmptyString |}, Some (req, msgChan))
          end
      end.

(** *** The streaming transport

    One session: the goroutine of [handleSSE] serving it, its channel
    [msgChan := make(chan string, 10)], its entry in [s.sessions], and the
    goroutines of [processRequest] that hold the channel.  Sessions share
    nothing: each has a channel of its own, reached only through its own
    identifier. *)

Definition chanCap : nat := 10.

(** [fmt.Sprintf("/message?sessionId=%s", sessionID)]. *)
Definition endpoint (sessionID : string) : string :=
  "/message?sessionId=" +:+ sessionID.

(** [fmt.Fprintf(w, "event: endpoint\ndata: %s\n\n", endpoint)]. *)
Definition endpointEvent (sessionID : string) : string :=
  "event: endpoint" +:+ nl +:+ "data: " +:+ endpoint sessionID +:+ nl +:+ nl.

(** [fmt.Fprintf(w, "event: message\ndata: %s\n\n", msg)]. *)
Definition messageEvent (msg : string) : string :=
  "event: message" +:+ nl +:+ "data: " +:+ msg +:+ nl +:+ nl.

(** Where the goroutine of [handleSSE] stands: after
    [s.sessions.Store] (line 61), in the [for]/[select] loop (lines
    73-82), or returned (the deferred [s.sessions.Delete] has run). *)
Inductive Stage : Type :=
| Announcing
| Looping
| Returned.

Record Session : Type :=
  { sessionID : string;
    stage : Stage;
    registered : bool;       (** [sessionID] is a key of [s.sessions] *)
    cancelled : bool;        (** [ctx.Done()] is closed *)
    msgChan : list string;   (** the buffer of the channel, oldest first *)
    written : list string;   (** the writes to [w], oldest first *)
    senders : list string    (** the goroutines at [msgChan <- m] (line 179), by their [m] *) }.

(** [handleSSE] up to line 62: without an [http.Flusher] it answers 500
    and opens no session; otherwise the session is stored under a fresh
    identifier ([uuid.New().String()]). *)
Definition handleSSE (flusher : bool) (id : string) : Response + Session :=
  if flusher then
    inr {| sessionID := id; stage := Announcing; registered := true;
           cancelled := false; msgChan := []; written := []; senders := [] |}
  else inl (http_Error "Streaming unsupported!" 500).

(** The steps of a session.
    - [step_announce]: lines 65-67, the endpoint event is written.
    - [step_deliver]: [case msg := <-msgChan], lines 75-77.
    - [step_cancel]: the request context is cancelled (by the client or
      the server), at any time.
    - [step_return]: [case <-ctx.Done()], lines 78-80, and the deferred
      [Delete] of line 62.
    - [step_accept]: [handleMessage] finds the session (line 97) and
      starts a [processRequest] that will send [msg].
    - [step_send]: a send [msgChan <- msg] completes; it can only when
      the buffer holds fewer than 10 messages (a send to a waiting
      receiver is a send followed by [step_deliver]). *)
Inductive step : Session -> Session -> Prop :=
| step_announce s :
    stage s = Announcing ->
    step s {| sessionID := sessionID s; stage := Looping;
              registered := registered s; cancelled := cancelled s;
              msgChan := msgChan s;
              written := written s ++ [endpointEvent (sessionID s)];
              senders := senders s |}
| step_deliver s msg rest :
    stage s = Looping ->
    msgChan s = msg :: rest ->
    step s {| sessionID := sessionID s; stage := Looping;
              registered := registered s; cancelled := cancelled s;
              msgChan := rest;
              written := written s ++ [messageEvent msg];
              senders := senders s |}
| step_cancel s :
    step s {| sessionID := sessionID s; stage := stage s;
              registered := registered s; cancelled := true;
              msgChan := msgChan s; written := written s;
              senders := senders s |}
| step_return s :
    stage s = Looping ->
    cancelled s = true ->
    step s {| sessionID := sessionID s; stage := Returned;
              registered := false; cancelled := cancelled s;
              msgChan := msgChan s; written := written s;
              senders := senders s |}
| step_accept s msg :
    registered s = true ->
    step s {| sessionID := sessionID s; stage := stage s;
              registered := registered s; cancelled := cancelled s;
              msgChan := msgChan s; written := written s;
              senders := senders s ++ [msg] |}
| step_send s before msg after :
    senders s = before ++ msg :: after ->
    (length (msgChan s) < chanCap)%nat ->
    step s {| sessionID := sessionID s; stage := stage s;
              registered := registered s; cancelled := cancelled s;
              msgChan := msgChan s ++ [msg]; written := written s;
              senders := before ++ after |}.

(** The states a session opened under [id] can reach. *)
Definition reachable (id : string) (s : Session) : Prop :=
  exists s0, handleSSE true id = inr s0 /\ rtc step s0 s.

End mcp.


(** * The vocabulary of the claims, and data to try them on *)
Module Claims.
Import GoURL GoJSON mcp.

(** The words "malformed params" of the specification: no JSON object,
    or an object that has no member [name]. *)
Definition malformed (p : RawMessage) : bool :=
  match p with
  | Some (JObject members) => negb (existsb (fun kv => String.eqb kv.1 "name") members)
  | _ => true
  end.

(** A value that decodes into an [interface{}]: it holds no number out
    of the range of [float64]. *)
Definition decodable (v : json) : bool :=
  match toInterface v with Some _ => true | None => false end.

(** The values the field [Name] takes: a string or [null]. *)
Definition storableName (v : json) : bool :=
  match v with
  | JString _ | JNull => true
  | _ => false
  end.

(** The values the field [Arguments] takes: [null], or an object whose
    members all decode. *)
Definition storableArguments (v : json) : bool :=
  match v with
  | JNull => true
  | JObject members => forallb (fun kv => decodable kv.2) members
  | _ => false
  end.

(** A member of the parameters that [json.Unmarshal] rejects: its name
    selects the field [name] or [arguments], and its value is none that
    the field takes. *)
Definition rejectedMember (key : string) (v : json) : bool :=
  if selects key "name" then negb (storableName v)
  else if selects key "arguments" then negb (storableArguments v)
  else false.

(** The parameters that do not decode into a [CallToolRequest]: no JSON
    text; a JSON boolean, number, string or array; an object with a
    rejected member. *)
Definition undecodable (p : RawMessage) : bool :=
  match p with
  | None => true
  | Some JNull => false
  | Some (JObject members) => existsb (fun kv => rejectedMember kv.1 kv.2) members
  | Some _ => true
  end.

(** A [tools/call] request with the given parameters. *)
Definition callWith (params : RawMessage) : JSONRPCRequest :=
  {| ReqJSONRPC := "2.0"; Method := "tools/call"; Params := params;
     ReqID := VString "r1" |}.

(** The parameters [{"name": name, "arguments": {}}]. *)
Definition naming (name : string) : RawMessage :=
  Some (JObject [("name", JString name); ("arguments", JObject [])]).

Definition failing : ToolHandler := fun _ => (None, Some "boom").

Definition echo : ToolHandler :=
  fun _ => (Some {| ResultContent := [{| ContentType := "text"; Text := "ok" |}];
                    IsError := false |}, None).

Definition tool (name : string) : Tool :=
  {| ToolName := name; Description := "a tool"; InputSchema := VMap ∅ |}.

Definition twoTools : Server :=
  RegisterTool (RegisterTool NewServer (tool "get_build") echo) (tool "bad") failing.

Definition namelessTool : Server :=
  RegisterTool NewServer (tool "") echo.

(** The session identifier [handleMessage] reads from the query. *)
Definition sessionIdOf (r : Request) : string :=
  Get (Query (RequestURL r)) "sessionId".

Definition accepted : Response := {| StatusCode := 202; ResponseBody := EmptyString |}.

(** A POST of the [tools/list] request with identifier 1. *)
Definition listRequest : json :=
  JObject [("jsonrpc", JString "2.0"); ("method", JString "tools/list");
           ("id", JNumber (Some 1%float))].

Definition postTo (query : string) (body : option json) : Request :=
  {| HTTPMethod := "POST";
     RequestURL := {| Path := "/message"; RawQuery := query |};
     Body := body |}.

(** A directory with the one session [S], on channel 7. *)
Definition oneSession : gmap string Chan := {["S" := 7%nat]}.

(** The session [S] after its client has gone: [handleSSE] has
    returned and removed it from the directory, ten responses of
    requests accepted earlier fill the channel, and one more
    [processRequest] is at its send. *)
Definition abandoned : Session :=
  {| sessionID := "S"; stage := Returned; registered := false; cancelled := true;
     msgChan := ["m1"; "m2"; "m3"; "m4"; "m5"; "m6"; "m7"; "m8"; "m9"; "m10"];
     written := [endpointEvent "S"];
     senders := ["m11"] |}.

(** The same with room in the channel: one response is buffered. *)
Definition abandonedWithRoom : Session :=
  {| sessionID := "S"; stage := Returned; registered := false; cancelled := true;
     msgChan := ["m1"];
     written := [endpointEvent "S"];
     senders := ["m2"] |}.

(** Before the announcement nothing is written; from then on the writes
    are the endpoint event followed by message events only. *)
Definition announcedFirst (id : string) (s : Session) : Prop :=
  sessionID s = id /\
  match stage s with
  | Announcing => written s = []
  | _ => exists msgs, written s = endpointEvent id :: (messageEvent <$> msgs)
  end.

(** The session [S] while it streams: one response has been delivered. *)
Definition streaming : Session :=
  {| sessionID := "S"; stage := Looping; registered := true; cancelled := false;
     msgChan := [];
     written := [endpointEvent "S"; messageEvent "m1"];
     senders := [] |}.

End Claims.


(** * More of [server.go]: the router and the registry *)
Module mcpServer.
Import GoURL GoJSON mcp.

(** Where [ServeHTTP] hands a request: to [handleSSE], to
    [handleMessage], or to [http.NotFound]. *)
Inductive Served : Type :=
| Streamed (s : Response + Session)
| Messaged (out : Response * option (JSONRPCRequest * Chan))
| NotFound (resp : Response).

(** [http.NotFound(w, r)]. *)
Definition http_NotFound : Response := http_Error "404 page not found" 404.

(** [ServeHTTP(w, r)]; [flusher] and [id] are what [handleSSE] finds:
    whether [w] is an [http.Flusher], and the identifier it draws. *)
Definition ServeHTTP (sessions : gmap string Chan) (flusher : bool) (id : string)
  (r : Request) : Served :=
  if String.eqb (Path (RequestURL r)) "/sse" then Streamed (handleSSE flusher id)
  else if String.eqb (Path (RequestURL r)) "/message" then
    Messaged (handleMessage sessions r)
  else NotFound http_NotFound.

(** The servers a program builds: [NewServer()], then calls of
    [RegisterTool]. *)
Inductive built : Server -> Prop :=
| built_NewServer : built NewServer
| built_RegisterTool s tool handler :
    built s -> built (RegisterTool s tool handler).

(** The request [req] with other parameters, and with another version tag. *)
Definition withParams (req : JSONRPCRequest) (params : RawMessage) : JSONRPCRequest :=
  {| ReqJSONRPC := ReqJSONRPC req; Method := Method req; Params := params;
     ReqID := ReqID req |}.

Definition withVersion (req : JSONRPCRequest) (version : string) : JSONRPCRequest :=
  {| ReqJSONRPC := version; Method := Method req; Params := Params req;
     ReqID := ReqID req |}.

(** A member of the request body that [Decode] rejects: [jsonrpc] or
    [method] with a value that is no string or [null], or [id] with a
    number out of range in it.  Any [params] is taken. *)
Definition rejectedField (key : string) (v : json) : bool :=
  if selects key "jsonrpc" then negb (Claims.storableName v)
  else if selects key "method" then negb (Claims.storableName v)
  else if selects key "params" then false
  else if selects key "id" then negb (Claims.decodable v)
  else false.

(** The bodies [handleMessage] answers with "Invalid JSON". *)
Definition rejectedBody (body : option json) : bool :=
  match body with
  | None => true
  | Some JNull => false
  | Some (JObject members) => existsb (fun kv => rejectedField kv.1 kv.2) members
  | Some _ => true
  end.

(** What lines 65-67 write during a run from [s] to [s']: the endpoint
    event when the run starts before the announcement and ends after
    it, nothing otherwise. *)
Definition announcement (s s' : Session) : list string :=
  match stage s, stage s' with
  | Announcing, Announcing => []
  | Announcing, _ => [endpointEvent (sessionID s)]
  | _, _ => []
  end.

(** The member [id] of the marshaled response: by the [omitempty] tag
    of the field [ID] (line 196) it is left out when [ID] is nil, and
    written for every other value. *)
Definition hasID (r : JSONRPCResponse) : bool :=
  match ID r with
  | VNil => false
  | _ => true
  end.

(** The values of the members of a request body whose name matches
    [id], in the order of the body. *)
Fixpoint idMembers (members : list (string * json)) : list json :=
  match members with
  | [] => []
  | (key, v) :: members' =>
      if selects key "id" then v :: idMembers members' else idMembers members'
  end.

(** The identifier of a request as its body has it: the value of the
    last member whose name matches [id]; [None] when the body is no
    object or has no such member. *)
Definition requestId (body : option json) : option json :=
  match body with
  | Some (JObject members) => last (idMembers members)
  | _ => None
  end.

(** The JSON number written as the decimal digits of the integer [n],
    for [0 <= n < 2^63]: [strconv.ParseFloat] makes of it the [float64]
    nearest to [n], ties to even. *)
Definition integerToken (n : Z) : json :=
  JNumber (Some (PrimFloat.of_uint63 (Uint63.of_Z n))).

(** The body of a [tools/list] request with the identifier [id]. *)
Definition listBody (id : json) : json :=
  JObject [("jsonrpc", JString "2.0"); ("method", JString "tools/list"); ("id", id)].

(** No byte of [s] is in [cutset]. *)
Fixpoint noneOf (cutset s : string) : bool :=
  match s with
  | EmptyString => true
  | String c s' => negb (GoStrings.inCutset c cutset) && noneOf cutset s'
  end.

(** The request a client sends to the endpoint announced for the
    session [id]: a POST to [/message?sessionId=id]. *)
Definition postToEndpoint (id : string) (body : option json) : Request :=
  {| HTTPMethod := "POST";
     RequestURL := {| Path := "/message"; RawQuery := "sessionId=" +:+ id |};
     Body := body |}.

End mcpServer.


(** * More words for the results of [ParseURL] *)
Module ParserWords.
Import GoStrings GoURL azuredevops.

(** Does the byte [c] occur in [s]? *)
Definition hasByte (c : ascii) (s : string) : bool := inCutset c s.

(** [s] with every [+] turned into a space. *)
Fixpoint spaced (s : string) : string :=
  match s with
  | EmptyString => EmptyString
  | String c s' => String (if Ascii.eqb c "+" then " "%char else c) (spaced s')
  end.

(** The marker [ParseURL] looks for in the path, by resource type. *)
Definition markerOf (ty : ResourceType) : string :=
  match ty with
  | ResourceBuild => "/_build"
  | ResourceRelease => "/_release"
  | ResourceUnknown => EmptyString
  end.

End ParserWords.


(** ** Package [azuredevops]: [client.go] *)
Module client.
Import GoStrings GoURL.

Definition newline : string := String (byte 10) EmptyString.

(** [fmt.Sprintf("%d", n)]. *)
Definition Itoa (n : Z) : string := NilZero.string_of_int (Z.to_int n).

(** *** [encoding/base64] *)

(** The alphabet of [base64.StdEncoding]. *)
Definition alphabet (n : Z) : ascii :=
  if n <? 26 then byte (Z.to_nat (65 + n))
  else if n <? 52 then byte (Z.to_nat (97 + (n - 26)))
  else if n <? 62 then byte (Z.to_nat (48 + (n - 52)))
  else if n =? 62 then "+"%char
  else "/"%char.

Definition sextet (val : Z) (shift : Z) : ascii :=
  alphabet (Z.land (Z.shiftr val shift) 63).

(** [base64.StdEncoding.EncodeToString(src)]: three bytes make four
    characters; one or two bytes left are padded with [=]. *)
Fixpoint EncodeToString (src : string) : string :=
  match src with
  | EmptyString => EmptyString
  | String a EmptyString =>
      let val := Z.shiftl (code a) 16 in
      String (sextet val 18) (String (sextet val 12) "==")
  | String a (String b EmptyString) =>
      let val := Z.lor (Z.shiftl (code a) 16) (Z.shiftl (code b) 8) in
      String (sextet val 18) (String (sextet val 12) (String (sextet val 6) "="))
  | String a (String b (String c src')) =>
      let val := Z.lor (Z.lor (Z.shiftl (code a) 16) (Z.shiftl (code b) 8)) (code c) in
      String (sextet val 18) (String (sextet val 12) (String (sextet val 6)
        (String (sextet val 0) (EncodeToString src'))))
  end.

(** *** The client and its requests *)

(** [Client] without [HTTPClient], which is the transport below. *)
Record Client : Type :=
  { BaseURL : string;
    Organization : string;
    Project : string;
    Token : string }.

Definition NewClient (baseURL organization project token : string) : Client :=
  {| BaseURL := TrimRight baseURL "/";
     Organization := organization;
     Project := project;
     Token := token |}.

(** An [http.Request] without a body: its method, the URL it was made
    from, and its header lines in the order they were added. *)
Record HTTPRequest : Type :=
  { ReqMethod : string;
    ReqURL : string;
    Header : list (string * string) }.

(** An [http.Response]: its status code and what [io.ReadAll(resp.Body)]
    returns. *)
Record HTTPResponse : Type :=
  { Status : Z;
    Content : string }.

(** [req.Header.Add(key, value)]. *)
Definition Header_Add (req : HTTPRequest) (key value : string) : HTTPRequest :=
  {| ReqMethod := ReqMethod req; ReqURL := ReqURL req;
     Header := Header req ++ [(key, value)] |}.

(** ["Basic " + base64(":" + c.Token)], lines 50-51 and 274-275. *)
Definition authorization (c : Client) : string :=
  "Basic " +:+ EncodeToString (":" +:+ Token c).

(** [json.NewDecoder(body).Decode(&t)] for the struct type [T]: the
    struct after the body is stored into [t], or the error. *)
Class Decodable (T : Type) : Type := Decode : string -> T -> result T.

(** *** The response structs

    The field [Id] of [Build], of [Release], of a log, of an environment
    and of a task are [BuildId], [ReleaseId], [LogId], [EnvironmentId]
    and [TaskId]; the other fields whose names meet are told apart the
    same way.  A struct nested in a field is a record of its own. *)

Record Build : Type :=
  { BuildId : Z;
    BuildNumber : string;
    BuildStatus : string;
    BuildResult : string;
    StartTime : string;
    FinishTime : string;
    BuildUrl : string;
    DefinitionName : string }.

Record BuildListResponse : Type :=
  { BuildCount : Z;
    BuildValue : list Build }.

Record LogItem : Type :=
  { LogId : Z;
    LogItemUrl : string }.

Record LogResponse : Type :=
  { LogValue : list LogItem }.

Record Release : Type :=
  { ReleaseId : Z;
    ReleaseName : string;
    ReleaseStatus : string;
    CreatedOn : string;
    ReleaseDescription : string;
    ReleaseDefinitionName : string }.

Record ReleaseListResponse : Type :=
  { ReleaseCount : Z;
    ReleaseValue : list Release }.

Record Task : Type :=
  { TaskId : Z;
    TaskName : string;
    LogUrl : string }.

Record DeploymentJob : Type := { Tasks : list Task }.

Record ReleaseDeployPhase : Type := { DeploymentJobs : list DeploymentJob }.

Record DeployStep : Type := { ReleaseDeployPhases : list ReleaseDeployPhase }.

Record Environment : Type :=
  { EnvironmentId : Z;
    EnvironmentName : string;
    DeploySteps : list DeployStep }.

Record ReleaseDetail : Type :=
  { Environments : list Environment }.

(** The zero values of the structs the client decodes into. *)
Definition zeroBuild : Build :=
  {| BuildId := 0; BuildNumber := ""; BuildStatus := ""; BuildResult := "";
     StartTime := ""; FinishTime := ""; BuildUrl := ""; DefinitionName := "" |}.

Definition zeroBuildList : BuildListResponse := {| BuildCount := 0; BuildValue := [] |}.

Definition zeroLogResponse : LogResponse := {| LogValue := [] |}.

Definition zeroRelease : Release :=
  {| ReleaseId := 0; ReleaseName := ""; ReleaseStatus := ""; CreatedOn := "";
     ReleaseDescription := ""; ReleaseDefinitionName := "" |}.

Definition zeroReleaseList : ReleaseListResponse :=
  {| ReleaseCount := 0; ReleaseValue := [] |}.

Definition zeroReleaseDetail : ReleaseDetail := {| Environments := [] |}.

(** [for _, x := range l { body }] over the state [st] of the loop. *)
Definition range {A St : Type} (body : A -> St -> St) (l : list A) (st : St) : St :=
  fold_left (fun st x => body x st) l st.

Section Transport.

(** [url.Parse], which [http.NewRequest] calls on the URL. *)
Variable url_Parse : string -> result URL.

(** The servers: the answer of [c.HTTPClient.Do(req)], or its error,
    after the requests [handed] to [Do] before. *)
Variable respond : list HTTPRequest -> HTTPRequest -> result HTTPResponse.

Context `{Decodable Build} `{Decodable BuildListResponse} `{Decodable LogResponse}.
Context `{Decodable Release} `{Decodable ReleaseListResponse} `{Decodable ReleaseDetail}.

(** [http.NewRequest(method, url, nil)] for a valid method. *)
Definition http_NewRequest (method url : string) : result HTTPRequest :=
  match url_Parse url with
  | Err err => Err err
  | Ok _ => Ok {| ReqMethod := method; ReqURL := url; Header := [] |}
  end.

(** [c.getRequest(project, path)]. *)
Definition getRequest (c : Client) (project path : string) : result HTTPRequest :=
  let targetProject := if negb (String.eqb project "") then project else Project c in
  let fullURL := BaseURL c +:+ "/" +:+ targetProject +:+ "/_apis/" +:+ path in
  let fullURL :=
    if String.eqb targetProject "" then BaseURL c +:+ "/_apis/" +:+ path else fullURL in
  match http_NewRequest "GET" fullURL with
  | Err err => Err err
  | Ok req =>
      Ok (Header_Add (Header_Add req "Authorization" (authorization c))
            "Content-Type" "application/json")
  end.

(** [c.HTTPClient.Do(req)]: the request joins those handed to [Do]. *)
Definition Do (req : HTTPRequest) (handed : list HTTPRequest)
  : result HTTPResponse * list HTTPRequest :=
  (respond handed req, handed ++ [req]).

(** [c.doRequest(req, v)]: the error it returns ([None] for nil) and
    what [v] points to afterwards; [v] is [None] for a nil [v].  When
    [Decode] fails the struct is left as it was: every caller drops it. *)
Definition doRequest {T : Type} `{Decodable T} (req : HTTPRequest) (v : option T)
  (handed : list HTTPRequest) : option string * option T * list HTTPRequest :=
  match Do req handed with
  | (Err err, handed') => (Some err, v, handed')
  | (Ok resp, handed') =>
      if (Status resp <? 200) || (300 <=? Status resp) then
        (Some ("API request failed with status " +:+ Itoa (Status resp) +:+ ": "
               +:+ Content resp), v, handed')
      else
        match v with
        | Some t =>
            match Decode (Content resp) t with
            | Err err => (Some err, v, handed')
            | Ok t' => (None, Some t', handed')
            end
        | None => (None, None, handed')
        end
  end.

Definition GetBuilds (c : Client) (project : string) (top : Z) (handed : list HTTPRequest)
  : result (list Build) * list HTTPRequest :=
  let path := "build/builds?api-version=6.0&$top=" +:+ Itoa top in
  match getRequest c project path with
  | Err err => (Err err, handed)
  | Ok req =>
      let '(err, response, handed') := doRequest req (Some zeroBuildList) handed in
      match err with
      | Some err => (Err err, handed')
      | None => (Ok (BuildValue (default zeroBuildList response)), handed')
      end
  end.

Definition GetBuild (c : Client) (project : string) (buildId : Z)
  (handed : list HTTPRequest) : result Build * list HTTPRequest :=
  let path := "build/builds/" +:+ Itoa buildId +:+ "?api-version=6.0" in
  match getRequest c project path with
  | Err err => (Err err, handed)
  | Ok req =>
      let '(err, build, handed') := doRequest req (Some zeroBuild) handed in
      match err with
      | Some err => (Err err, handed')
      | None => (Ok (default zeroBuild build), handed')
      end
  end.

(** The body of the loop of [GetBuildLogs], lines 145-163, over
    [fullLogs] and the requests handed to [Do]. *)
Definition buildLog (c : Client) (project : string) (buildId : Z) (logItem : LogItem)
  (st : string * list HTTPRequest) : string * list HTTPRequest :=
  let '(fullLogs, handed) := st in
  let logPath :=
    "build/builds/" +:+ Itoa buildId +:+ "/logs/" +:+ Itoa (LogId logItem)
    +:+ "?api-version=6.0" in
  match getRequest c project logPath with
  | Err _ => st
  | Ok logReq =>
      match Do logReq handed with
      | (Err _, handed') => (fullLogs, handed')
      | (Ok resp, handed') =>
          (fullLogs +:+ ("--- Log ID " +:+ Itoa (LogId logItem) +:+ " ---" +:+ newline)
             +:+ Content resp +:+ newline,
           handed')
      end
  end.

Definition GetBuildLogs (c : Client) (project : string) (buildId : Z)
  (handed : list HTTPRequest) : result string * list HTTPRequest :=
  let path := "build/builds/" +:+ Itoa buildId +:+ "/logs?api-version=6.0" in
  match getRequest c project path with
  | Err err => (Err err, handed)
  | Ok req =>
      let '(err, logResp, handed') := doRequest req (Some zeroLogResponse) handed in
      match err with
      | Some err => (Err err, handed')
      | None =>
          let '(fullLogs, handed'') :=
            range (buildLog c project buildId)
              (LogValue (default zeroLogResponse logResp)) (EmptyString, handed') in
          (Ok fullLogs, handed'')
      end
  end.

Definition GetReleases (c : Client) (project : string) (top : Z)
  (handed : list HTTPRequest) : result (list Release) * list HTTPRequest :=
  let path := "release/releases?api-version=6.0&$top=" +:+ Itoa top in
  match getRequest c project path with
  | Err err => (Err err, handed)
  | Ok req =>
      let '(err, response, handed') := doRequest req (Some zeroReleaseList) handed in
      match err with
      | Some err => (Err err, handed')
      | None => (Ok (ReleaseValue (default zeroReleaseList response)), handed')
      end
  end.

Definition GetRelease (c : Client) (project : string) (releaseId : Z)
  (handed : list HTTPRequest) : result Release * list HTTPRequest :=
  let path := "release/releases/" +:+ Itoa releaseId +:+ "?api-version=6.0" in
  match getRequest c project path with
  | Err err => (Err err, handed)
  | Ok req =>
      let '(err, release, handed') := doRequest req (Some zeroRelease) handed in
      match err with
      | Some err => (Err err, handed')
      | None => (Ok (default zeroRelease release), handed')
      end
  end.

(** The body of the innermost loop of [GetReleaseLogs], lines 263-288. *)
Definition taskLog (c : Client) (task : Task) (st : string * list HTTPRequest)
  : string * list HTTPRequest :=
  let '(fullLogs, handed) := st in
  if String.eqb (LogUrl task) "" then st
  else
    match http_NewRequest "GET" (LogUrl task) with
    | Err _ => st
    | Ok logReq =>
        let logReq := Header_Add logReq "Authorization" (authorization c) in
        match Do logReq handed with
        | (Err _, handed') => (fullLogs, handed')
        | (Ok resp, handed') =>
            (fullLogs +:+ ("--- Task: " +:+ TaskName task +:+ " ---" +:+ newline)
               +:+ Content resp +:+ newline,
             handed')
        end
    end.

(** The body of the outermost loop, lines 258-292. *)
Definition environmentLogs (c : Client) (env : Environment)
  (st : string * list HTTPRequest) : string * list HTTPRequest :=
  let '(fullLogs, handed) := st in
  range
    (fun step =>
       range
         (fun phase =>
            range (fun job => range (taskLog c) (Tasks job)) (DeploymentJobs phase))
         (ReleaseDeployPhases step))
    (DeploySteps env)
    (fullLogs +:+ ("=== Environment: " +:+ EnvironmentName env +:+ " ===" +:+ newline),
     handed).

Definition GetReleaseLogs (c : Client) (project : string) (releaseId : Z)
  (handed : list HTTPRequest) : result string * list HTTPRequest :=
  let path := "release/releases/" +:+ Itoa releaseId +:+ "?api-version=6.0" in
  match getRequest c project path with
  | Err err => (Err err, handed)
  | Ok req =>
      let '(err, detail, handed') := doRequest req (Some zeroReleaseDetail) handed in
      match err with
      | Some err => (Err err, handed')
      | None =>
          let '(fullLogs, handed'') :=
            range (environmentLogs c)
              (Environments (default zeroReleaseDetail detail)) (EmptyString, handed') in
          (Ok fullLogs, handed'')
      end
  end.

End Transport.

(** *** Words for the properties of the client *)

(** The tasks of an environment in the order the loops visit them. *)
Definition tasksOf (env : Environment) : list Task :=
  step ← DeploySteps env;
  phase ← ReleaseDeployPhases step;
  job ← DeploymentJobs phase;
  Tasks job.

(** A request the client may send: a GET that carries the token. *)
Definition authenticatedGet (c : Client) (req : HTTPRequest) : Prop :=
  ReqMethod req = "GET" /\ ("Authorization", authorization c) ∈ Header req.

(** From [handed] to [handed'] only such requests were handed to [Do]. *)
Definition sendsOnly (c : Client) (handed handed' : list HTTPRequest) : Prop :=
  exists more, handed' = handed ++ more /\ Forall (authenticatedGet c) more.

(** The pieces of a text, put together. *)
Definition joined (pieces : list string) : string := foldr String.append EmptyString pieces.

(** The request [GetBuildLogs] makes for one log of the listing, when
    [getRequest] makes one. *)
Definition logRequest (url_Parse : string -> result URL) (c : Client) (project : string)
  (buildId : Z) (logItem : LogItem) : option HTTPRequest :=
  match getRequest url_Parse c project
          ("build/builds/" +:+ Itoa buildId +:+ "/logs/" +:+ Itoa (LogId logItem)
           +:+ "?api-version=6.0") with
  | Ok logReq => Some logReq
  | Err _ => None
  end.

(** The request [GetReleaseLogs] makes for one task: none without a
    [LogUrl] or when [http.NewRequest] fails. *)
Definition taskRequest (url_Parse : string -> result URL) (c : Client) (task : Task)
  : option HTTPRequest :=
  if String.eqb (LogUrl task) "" then None
  else
    match http_NewRequest url_Parse "GET" (LogUrl task) with
    | Ok logReq => Some (Header_Add logReq "Authorization" (authorization c))
    | Err _ => None
    end.

(** The section of one log in the text of [GetBuildLogs], and of one
    task in the text of [GetReleaseLogs]; the heading of an environment. *)
Definition logSection (logItem : LogItem) (content : string) : string :=
  "--- Log ID " +:+ Itoa (LogId logItem) +:+ " ---" +:+ newline +:+ content +:+ newline.

(** What one log of the listing adds to the text of [GetBuildLogs],
    when [handed] are the requests handed to the transport up to the
    listing and [earlier] the logs before it in the listing: nothing
    when no request is made for it or the transport fails, and else the
    section with the body of the answer to its request. *)
Definition logPiece (url_Parse : string -> result URL)
  (respond : list HTTPRequest -> HTTPRequest -> result HTTPResponse)
  (c : Client) (project : string) (buildId : Z) (handed : list HTTPRequest)
  (earlier : list LogItem) (logItem : LogItem) : string :=
  match logRequest url_Parse c project buildId logItem with
  | None => EmptyString
  | Some logReq =>
      match respond (handed ++ omap (logRequest url_Parse c project buildId) earlier)
              logReq with
      | Ok resp => logSection logItem (Content resp)
      | Err _ => EmptyString
      end
  end.

Definition taskSection (task : Task) (content : string) : string :=
  "--- Task: " +:+ TaskName task +:+ " ---" +:+ newline +:+ content +:+ newline.

Definition environmentHeading (env : Environment) : string :=
  "=== Environment: " +:+ EnvironmentName env +:+ " ===" +:+ newline.

(** *** A server to try the client on: it lists the logs 3 and 4 of
    build 7, has lost log 3 and serves log 4. *)

Definition sampleParse (rawURL : string) : result URL :=
  if Contains rawURL " " then Err "invalid character in URL"
  else Ok {| Path := rawURL; RawQuery := EmptyString |}.

Definition sampleRespond (handed : list HTTPRequest) (req : HTTPRequest)
  : result HTTPResponse :=
  if String.eqb (ReqURL req) "https://ado/Shop/_apis/build/builds/7/logs?api-version=6.0"
  then Ok {| Status := 200; Content := "listing" |}
  else if String.eqb (ReqURL req)
            "https://ado/Shop/_apis/build/builds/7/logs/4?api-version=6.0"
  then Ok {| Status := 200; Content := "compiled" |}
  else if String.eqb (ReqURL req) "https://logs.example/t1"
  then Ok {| Status := 200; Content := "deployed" |}
  else if String.eqb (ReqURL req) "https://ado/Shop/_apis/release/releases/9?api-version=6.0"
  then Ok {| Status := 200; Content := "detail" |}
  else Ok {| Status := 404; Content := "gone" |}.

#[export] Instance sampleLogs : Decodable LogResponse :=
  fun body t =>
    if String.eqb body "listing"
    then Ok {| LogValue := [{| LogId := 3; LogItemUrl := "" |};
                            {| LogId := 4; LogItemUrl := "" |}] |}
    else Err "unexpected end of JSON input".

#[export] Instance sampleDetail : Decodable ReleaseDetail :=
  fun body t =>
    if String.eqb body "detail"
    then Ok {| Environments :=
                 [{| EnvironmentId := 1; EnvironmentName := "Test";
                     DeploySteps :=
                       [{| ReleaseDeployPhases :=
                             [{| DeploymentJobs :=
                                   [{| Tasks :=
                                         [{| TaskId := 1; TaskName := "copy";
                                             LogUrl := "" |};
                                          {| TaskId := 2; TaskName := "deploy";
                                             LogUrl := "https://logs.example/t1" |}] |}] |}] |}] |};
                  {| EnvironmentId := 2; EnvironmentName := "Prod"; DeploySteps := [] |}] |}
    else Err "unexpected end of JSON input".

#[export] Instance sampleBuild : Decodable Build :=
  fun body t => Err "unexpected end of JSON input".

#[export] Instance sampleBuildList : Decodable BuildListResponse :=
  fun body t => Err "unexpected end of JSON input".

#[export] Instance sampleRelease : Decodable Release :=
  fun body t => Err "unexpected end of JSON input".

#[export] Instance sampleReleaseList : Decodable ReleaseListResponse :=
  fun body t => Err "unexpected end of JSON input".

Definition shop : Client := NewClient "https://ado//" "org" "Shop" "token".

End client.


(** ** Package [main]: [main.go] *)
Module main.
Import GoJSON mcp.

(** [args[key]]: nil when the map is nil or has no such key. *)
Definition argument (args : option (gmap string value)) (key : string) : value :=
  default VNil (args ≫= (fun m => m !! key)).

(** [f, ok := v.(float64)]. *)
Definition float64_of (v : value) : option float :=
  match v with
  | VFloat64 f => Some f
  | _ => None
  end.

(** [s, _ := v.(string)]. *)
Definition string_of (v : value) : string :=
  match v with
  | VString s => s
  | _ => EmptyString
  end.

(** [&mcp.CallToolResult{Content: []mcp.Content{{Type: "text", Text: text}}}]. *)
Definition textResult (text : string) : CallToolResult :=
  {| ResultContent := [{| ContentType := "text"; Text := text |}]; IsError := false |}.

(** *** The tools registered *)

(** One entry of ["properties"]. *)
Definition property (type description : string) : value :=
  VMap (<["type" := VString type]> {["description" := VString description]}).

Definition projectProperty : value :=
  property "string" "Project name (optional, overrides default)".

(** The schema of the tools that list: no member ["required"]. *)
Definition listSchema (description : string) : value :=
  VMap (<["type" := VString "object"]>
       {["properties" :=
           VMap (<["top" := property "integer" description]>
                {["project" := projectProperty]})]}).

(** The schema of the tools that take an identifier; the [[]string] of
    ["required"] is written as the slice it marshals like. *)
Definition idSchema (key description : string) : value :=
  VMap (<["type" := VString "object"]>
       (<["properties" :=
            VMap (<[key := property "integer" description]>
                 {["project" := projectProperty]})]>
       {["required" := VSlice [VString key]]})).

Definition list_builds_tool : Tool :=
  {| ToolName := "list_builds"; Description := "List recent builds";
     InputSchema := listSchema "Number of builds to retrieve (default 10)" |}.

Definition get_build_tool : Tool :=
  {| ToolName := "get_build"; Description := "Get build details";
     InputSchema := idSchema "buildId" "ID of the build" |}.

Definition get_build_logs_tool : Tool :=
  {| ToolName := "get_build_logs"; Description := "Get build logs";
     InputSchema := idSchema "buildId" "ID of the build" |}.

Definition list_releases_tool : Tool :=
  {| ToolName := "list_releases"; Description := "List recent releases";
     InputSchema := listSchema "Number of releases to retrieve (default 10)" |}.

Definition get_release_tool : Tool :=
  {| ToolName := "get_release"; Description := "Get release details";
     InputSchema := idSchema "releaseId" "ID of the release" |}.

Definition get_release_logs_tool : Tool :=
  {| ToolName := "get_release_logs"; Description := "Get release logs";
     InputSchema := idSchema "releaseId" "ID of the release" |}.

(** The tools that take an identifier: their name, the argument that
    holds it, and the error of the handler when it is no number. *)
Definition idTools : list (string * string * string) :=
  [("get_build", "buildId", "buildId is required and must be an integer");
   ("get_build_logs", "buildId", "buildId is required and must be an integer");
   ("get_release", "releaseId", "releaseId is required and must be an integer");
   ("get_release_logs", "releaseId", "releaseId is required and must be an integer")].

(** The tools that list. *)
Definition listTools : list string := ["list_builds"; "list_releases"].

(** What [flag.Parse()] makes of the command line, with [-port] the
    only flag defined (line 253).  The flag set exits on error: an
    undefined flag, a bad flag syntax, [-port] without a value and
    [-h] or [-help] end the program inside [flag.Parse()].  Otherwise
    it returns, with the value given for [-port] when the flag is on
    the command line. *)
Inductive Flags : Type :=
| FlagsExit
| FlagsParsed (port : option string).

Section Tools.

(** The conversion [int(f)] of a [float64]. *)
Variable int : float -> Z.

(** The transport of the client. *)
Variable url_Parse : string -> result GoURL.URL.
Variable respond : list client.HTTPRequest -> client.HTTPRequest -> result client.HTTPResponse.
Context `{client.Decodable client.Build} `{client.Decodable client.BuildListResponse}.
Context `{client.Decodable client.LogResponse} `{client.Decodable client.Release}.
Context `{client.Decodable client.ReleaseListResponse}.
Context `{client.Decodable client.ReleaseDetail}.

(** [json.MarshalIndent(v, "", "  ")] as a string, its error dropped. *)
Variable MarshalIndent_builds : list client.Build -> string.
Variable MarshalIndent_build : client.Build -> string.
Variable MarshalIndent_releases : list client.Release -> string.
Variable MarshalIndent_release : client.Release -> string.

(** The requests handed to the transport before a handler runs. *)
Variable handed : list client.HTTPRequest.

(** What a handler returns for the result of a client call. *)
Definition returned {A : Type} (r : result A) (text : A -> string)
  : option CallToolResult * option string :=
  match r with
  | Err err => (None, Some err)
  | Ok a => (Some (textResult (text a)), None)
  end.

(** The handlers, lines 285-301, 321-338, 358-374, 393-409, 429-446
    and 466-482. *)
Definition list_builds (c : client.Client) : ToolHandler :=
  fun args =>
    let top :=
      match float64_of (argument args "top") with
      | Some t => int t
      | None => 10
      end in
    let project := string_of (argument args "project") in
    returned (client.GetBuilds url_Parse respond c project top handed).1
      MarshalIndent_builds.

Definition get_build (c : client.Client) : ToolHandler :=
  fun args =>
    match float64_of (argument args "buildId") with
    | None => (None, Some "buildId is required and must be an integer")
    | Some buildIdFloat =>
        let buildId := int buildIdFloat in
        let project := string_of (argument args "project") in
        returned (client.GetBuild url_Parse respond c project buildId handed).1
          MarshalIndent_build
    end.

Definition get_build_logs (c : client.Client) : ToolHandler :=
  fun args =>
    match float64_of (argument args "buildId") with
    | None => (None, Some "buildId is required and must be an integer")
    | Some buildIdFloat =>
        let buildId := int buildIdFloat in
        let project := string_of (argument args "project") in
        returned (client.GetBuildLogs url_Parse respond c project buildId handed).1
          (fun logs => logs)
    end.

Definition list_releases (c : client.Client) : ToolHandler :=
  fun args =>
    let top :=
      match float64_of (argument args "top") with
      | Some t => int t
      | None => 10
      end in
    let project := string_of (argument args "project") in
    returned (client.GetReleases url_Parse respond c project top handed).1
      MarshalIndent_releases.

Definition get_release (c : client.Client) : ToolHandler :=
  fun args =>
    match float64_of (argument args "releaseId") with
    | None => (None, Some "releaseId is required and must be an integer")
    | Some releaseIdFloat =>
        let releaseId := int releaseIdFloat in
        let project := string_of (argument args "project") in
        returned (client.GetRelease url_Parse respond c project releaseId handed).1
          MarshalIndent_release
    end.

Definition get_release_logs (c : client.Client) : ToolHandler :=
  fun args =>
    match float64_of (argument args "releaseId") with
    | None => (None, Some "releaseId is required and must be an integer")
    | Some releaseIdFloat =>
        let releaseId := int releaseIdFloat in
        let project := string_of (argument args "project") in
        returned (client.GetReleaseLogs url_Parse respond c project releaseId handed).1
          (fun logs => logs)
    end.

(** The server after the six calls of [RegisterTool]. *)
Definition registered (c : client.Client) : Server :=
  RegisterTool
    (RegisterTool
       (RegisterTool
          (RegisterTool
             (RegisterTool
                (RegisterTool NewServer list_builds_tool (list_builds c))
                get_build_tool (get_build c))
             get_build_logs_tool (get_build_logs c))
          list_releases_tool (list_releases c))
       get_release_tool (get_release c))
    get_release_logs_tool (get_release_logs c).

(** [main()] up to [http.ListenAndServe(":"+port, server)]: the address
    and the server it is called with, [None] when the program ends
    before, in [flag.Parse()] (line 254) or by the [log.Fatal] of line
    262.  [Getenv] is the environment after [godotenv.Load], [flags]
    what [flag.Parse()] makes of the command line. *)
Definition main (Getenv : string -> string) (flags : Flags)
  : option (string * Server) :=
  let defaultPort := Getenv "PORT" in
  let defaultPort := if String.eqb defaultPort "" then "8080" else defaultPort in
  match flags with
  | FlagsExit => None
  | FlagsParsed flagPort =>
      let port := default defaultPort flagPort in
      let adoURL := Getenv "ADO_URL" in
      let adoOrg := Getenv "ADO_ORG" in
      let adoProject := Getenv "ADO_PROJECT" in
      let adoToken := Getenv "ADO_TOKEN" in
      if String.eqb adoURL "" || String.eqb adoToken "" then None
      else
        let client := client.NewClient adoURL adoOrg adoProject adoToken in
        Some (":" +:+ port, registered client)
  end.

End Tools.

(** *** Data to try the tools on *)

(** An environment with the server and the token set. *)
Definition sampleEnv (name : string) : string :=
  if String.eqb name "ADO_URL" then "https://ado/"
  else if String.eqb name "ADO_TOKEN" then "token"
  else if String.eqb name "ADO_PROJECT" then "Shop"
  else EmptyString.

(** The conversion [int(f)] for the numbers the examples use: those
    from 7 up to 8 and from 10 up to 11. *)
Definition sampleInt (f : float) : Z :=
  if PrimFloat.leb 7%float f && PrimFloat.ltb f 8%float then 7
  else if PrimFloat.leb 10%float f && PrimFloat.ltb f 11%float then 10
  else 0.

(** What the examples marshal to. *)
Definition sampleMarshal {A : Type} (a : A) : string := "{}".

End main.


(** * Proof steps that recur *)
Module Steps.
Import mcp.

(** Enters the [tools/call] branch of [processRequest], given
    [Hm : Method req = "tools/call"]. *)
Ltac tools_call Hm :=
  unfold processRequest; rewrite Hm;
  change (String.eqb "tools/call" "tools/list") with false;
  change (String.eqb "tools/call" "tools/call") with true;
  cbv iota.

(** Closes a goal about one path through [handleMessage]. *)
Ltac settle :=
  repeat match goal with
    | H : _ /\ _ |- _ => destruct H
    | H : is_Some None |- _ => destruct (is_Some_None H)
    end;
  try congruence; try discriminate; try tauto; eauto.

(** One step of a run of a session, then the state it leads to. *)
Ltac run_step c := eapply rtc_l; [c|cbn].

End Steps.


(** * The definitions on concrete inputs *)
Module ParserExamples.
Import GoStrings GoStrconv GoURL azuredevops.

Example Split_path :
  Split "/DefaultCollection/Shop/_build/results" "/_build" =
    ["/DefaultCollection/Shop"; "/results"].
Proof. reflexivity. Qed.

Example Split_keeps_empty_pieces : Split "a,b,,c," "," = ["a"; "b"; ""; "c"; ""].
Proof. reflexivity. Qed.

Example Split_of_empty : Split "" "/" = [""].
Proof. reflexivity. Qed.

Example TrimRight_slashes : TrimRight "/a/b///" "/" = "/a/b".
Proof. reflexivity. Qed.

Example Atoi_signed : Atoi "-12" = Some (-12) /\ Atoi "+7" = Some 7 /\ Atoi "007" = Some 7.
Proof. repeat split. Qed.

Example Atoi_rejects :
  Atoi "" = None /\ Atoi "-" = None /\ Atoi "12a" = None /\ Atoi "1_0" = None /\
  Atoi "9223372036854775808" = None.
Proof. repeat split. Qed.

Example Atoi_bounds :
  Atoi "9223372036854775807" = Some maxInt /\ Atoi "-9223372036854775808" = Some minInt.
Proof. split; reflexivity. Qed.

Example QueryUnescape_escapes : QueryUnescape "My%20Project+1" = Ok "My Project 1".
Proof. reflexivity. Qed.

Example QueryUnescape_bad_escape :
  QueryUnescape "Sales%" = Err "invalid URL escape" /\
  QueryUnescape "a%zz" = Err "invalid URL escape".
Proof. split; reflexivity. Qed.

Example ParseQuery_pairs :
  ParseQuery "buildId=12&x=1;2&&y&buildId=13&z=%zz&a%20b=c+d" =
    [("buildId", "12"); ("y", ""); ("buildId", "13"); ("a b", "c d")].
Proof. reflexivity. Qed.

Example Get_first_value : Get (ParseQuery "buildId=12&buildId=13") "buildId" = "12".
Proof. reflexivity. Qed.

Example ParseURL_build :
  ParseURL sampleParse
    "https://ado.example.com/DefaultCollection/My%20Project/_build/results?buildId=42&view=logs"
  = Ok {| Type_ := ResourceBuild; Project := "My Project"; ID := 42 |}.
Proof. reflexivity. Qed.

Example ParseURL_release :
  ParseURL sampleParse
    "https://ado.example.com/DefaultCollection/Shop/_release?_a=release-summary&releaseId=7"
  = Ok {| Type_ := ResourceRelease; Project := "Shop"; ID := 7 |}.
Proof. reflexivity. Qed.

(** [url.Parse] decodes [%25] in the path to [%]; the segment [Sales%]
    then fails to unescape, and the project is empty. *)
Example ParseURL_segment_not_unescaped :
  ParseURL sampleParse
    "https://ado.example.com/DefaultCollection/Sales%25/_build/results?buildId=5"
  = Ok {| Type_ := ResourceBuild; Project := ""; ID := 5 |}.
Proof. reflexivity. Qed.

Example ParseURL_unparsed : ParseURL sampleParse "::" = Err "parse error".
Proof. reflexivity. Qed.

End ParserExamples.

Module ServerExamples.
Import GoURL GoJSON mcp Claims.

Example selects_folds_case :
  selects "Name" "name" = true /\ selects "ARGUMENTS" "arguments" = true /\
  selects "names" "name" = false.
Proof. repeat split. Qed.

(** The body [{"jsonrpc":"2.0","method":"notifications/initialized","id":null}]. *)
Example Decode_notification :
  DecodeJSONRPCRequest
    (Some (JObject [("jsonrpc", JString "2.0");
                    ("method", JString "notifications/initialized");
                    ("id", JNull)])) =
    Some {| ReqJSONRPC := "2.0"; Method := "notifications/initialized";
            Params := None; ReqID := VNil |}.
Proof. reflexivity. Qed.

(** A member [params] with the value [null] is kept as the text [null]. *)
Example Decode_null_params :
  DecodeJSONRPCRequest
    (Some (JObject [("method", JString "tools/call"); ("params", JNull)])) =
    Some {| ReqJSONRPC := ""; Method := "tools/call"; Params := Some JNull;
            ReqID := VNil |}.
Proof. reflexivity. Qed.

Example Decode_rejects :
  DecodeJSONRPCRequest None = None /\
  DecodeJSONRPCRequest (Some (JArray [])) = None /\
  DecodeJSONRPCRequest (Some (JObject [("method", JNumber (Some 1%float))])) = None /\
  DecodeJSONRPCRequest (Some (JObject [("id", JNumber None)])) = None.
Proof. repeat split. Qed.

(** The scenario of the specification: [tools/list] posted to the
    session [S] is accepted, and answered with the registered tools (in
    the order of [map_to_list]; Go gives them in any order). *)
Example tools_list_scenario :
  handleMessage oneSession (postTo "sessionId=S" (Some listRequest)) =
    (accepted,
     Some ({| ReqJSONRPC := "2.0"; Method := "tools/list"; Params := None;
              ReqID := VFloat64 1%float |}, 7%nat)) /\
  processRequest twoTools
    {| ReqJSONRPC := "2.0"; Method := "tools/list"; Params := None;
       ReqID := VFloat64 1%float |} =
    {| calls := [];
       sent := Some {| JSONRPC := "2.0";
                       Result := Some (ToolsListed [tool "get_build"; tool "bad"]);
                       Error := None;
                       ID := VFloat64 1%float |} |}.
Proof. split; vm_compute; reflexivity. Qed.

Example handleMessage_refusals :
  handleMessage oneSession
    {| HTTPMethod := "GET"; RequestURL := {| Path := "/message"; RawQuery := "" |};
       Body := None |} = (http_Error "Method not allowed" 405, None) /\
  handleMessage oneSession (postTo "" (Some listRequest)) =
    (http_Error "Missing sessionId" 400, None) /\
  handleMessage oneSession (postTo "sessionId=T" None) =
    (http_Error "Session not found" 404, None) /\
  handleMessage oneSession (postTo "sessionId=S" None) =
    (http_Error "Invalid JSON" 400, None).
Proof. repeat split. Qed.

Example tools_call_echo :
  processRequest twoTools (callWith (naming "get_build")) =
    {| calls := [("get_build", Some ∅)];
       sent := Some {| JSONRPC := "2.0";
                       Result := Some (ToolReturned
                         (Some {| ResultContent := [{| ContentType := "text"; Text := "ok" |}];
                                  IsError := false |}));
                       Error := None;
                       ID := VString "r1" |} |}.
Proof. vm_compute. reflexivity. Qed.

End ServerExamples.


(** * Properties of the string functions *)
Module StringsFacts.
Import GoStrings.

Lemma HasPrefix_empty s : HasPrefix s EmptyString = true.
Proof. destruct s; reflexivity. Qed.

Lemma Cut_of_empty sep : sep <> EmptyString -> Cut EmptyString sep = None.
Proof. destruct sep; [congruence|reflexivity]. Qed.

Lemma Cut_shorter s sep before after :
  sep <> EmptyString -> Cut s sep = Some (before, after) ->
  (String.length after < String.length s)%nat.
Proof.
  intros Hsep. revert before after.
  assert (Hskip : forall n t, (String.length (skip n t) <= String.length t)%nat).
  { induction n as [|n IH]; intros [|c t]; simpl; try lia.
    specialize (IH t). lia. }
  induction s as [|c s IH]; intros before after.
  - rewrite Cut_of_empty by assumption. discriminate.
  - destruct sep as [|p sep]; [congruence|]. cbn [Cut].
    destruct (HasPrefix (String c s) (String p sep)).
    + intros Heq. simplify_eq. simpl. specialize (Hskip (String.length sep) s). lia.
    + destruct (Cut s (String p sep)) as [[b a]|] eqn:Hc; [|discriminate].
      intros Heq. simplify_eq. specialize (IH _ _ eq_refl). simpl. lia.
Qed.

(** [Split] starts with the text before the first occurrence of [sep]. *)
Lemma Split_head s sep before after :
  sep <> EmptyString -> Cut s sep = Some (before, after) ->
  exists rest, Split s sep = before :: rest.
Proof.
  intros Hsep Hc. unfold Split. destruct s as [|c s].
  - rewrite Cut_of_empty in Hc by assumption. discriminate.
  - cbn [String.length Split_rounds]. rewrite Hc. eauto.
Qed.

Lemma Split_rounds_stable sep n m s :
  sep <> EmptyString ->
  (String.length s <= n)%nat -> (String.length s <= m)%nat ->
  Split_rounds n s sep = Split_rounds m s sep.
Proof.
  intros Hsep. revert m s. induction n as [|n IH]; intros m s Hn Hm.
  - destruct s; [|simpl in Hn; lia].
    destruct m; [reflexivity|]. cbn [Split_rounds].
    rewrite Cut_of_empty by assumption. reflexivity.
  - cbn [Split_rounds]. destruct (Cut s sep) as [[before after]|] eqn:Hc.
    + pose proof (Cut_shorter _ _ _ _ Hsep Hc).
      destruct m; [lia|]. cbn [Split_rounds]. rewrite Hc.
      f_equal. apply IH; lia.
    + destruct m; [reflexivity|]. cbn [Split_rounds]. rewrite Hc. reflexivity.
Qed.

(** The rounds of [Split] are enough: more of them change nothing. *)
Lemma Split_rounds_enough sep n s :
  sep <> EmptyString -> (String.length s <= n)%nat ->
  Split_rounds n s sep = Split s sep.
Proof. intros Hsep Hn. apply Split_rounds_stable; [assumption|lia|lia]. Qed.

Lemma Split_rounds_nonempty n s sep : Split_rounds n s sep <> [].
Proof. destruct n; simpl; [discriminate|]. destruct (Cut s sep) as [[? ?]|]; discriminate. Qed.

End StringsFacts.


(** * Properties of the URL parser *)
Module ParserFacts.
Import GoStrings GoStrconv GoURL azuredevops StringsFacts.

(** A cut at the first slash, by cases on the first byte. *)
Lemma Cut_slash c s :
  Cut (String c s) "/" =
    if Ascii.eqb "/" c then Some (EmptyString, s)
    else match Cut s "/" with
         | Some (before, after) => Some (String c before, after)
         | None => None
         end.
Proof.
  cbn [Cut HasPrefix String.length skip]. rewrite HasPrefix_empty.
  destruct (Ascii.eqb "/" c); reflexivity.
Qed.

Lemma afterLastSlash_Cut s :
  match Cut s "/" with
  | None => afterLastSlash s = None
  | Some (_, after) => afterLastSlash s = Some (lastSegment after)
  end.
Proof.
  induction s as [|c s IH]; [reflexivity|].
  rewrite Cut_slash. cbn [afterLastSlash].
  rewrite (Ascii.eqb_sym c "/").
  destruct (Ascii.eqb "/" c).
  - unfold lastSegment. destruct (afterLastSlash s); reflexivity.
  - destruct (Cut s "/") as [[b a]|]; rewrite IH; reflexivity.
Qed.

(** The last element of a split at slashes is the last segment. *)
Lemma last_Split_rounds n s :
  (String.length s <= n)%nat ->
  last (Split_rounds n s "/") = Some (lastSegment s).
Proof.
  revert s. induction n as [|n IH]; intros s Hlen.
  - destruct s; [reflexivity|simpl in Hlen; lia].
  - cbn [Split_rounds]. pose proof (afterLastSlash_Cut s) as Ha.
    destruct (Cut s "/") as [[b a]|] eqn:Hc.
    + assert (String.length a < String.length s)%nat
        by (apply (Cut_shorter s "/" b a); [discriminate|assumption]).
      pose proof (Split_rounds_nonempty n a "/") as Hne.
      destruct (Split_rounds n a "/") as [|x l] eqn:Hs; [congruence|].
      rewrite last_cons_cons, <- Hs, IH by lia.
      unfold lastSegment at 2. rewrite Ha. reflexivity.
    + unfold lastSegment. rewrite Ha. reflexivity.
Qed.

Lemma last_Split s : last (Split s "/") = Some (lastSegment s).
Proof. apply last_Split_rounds. lia. Qed.

Lemma Atoi_of_empty : Atoi EmptyString = None.
Proof. reflexivity. Qed.

Lemma ParseURL_blocks url_Parse rawURL :
  ParseURL url_Parse rawURL =
    match url_Parse rawURL with
    | Err err => Err err
    | Ok u =>
        match block ResourceBuild "/_build" "buildId" u with
        | Some r => Ok r
        | None =>
            match block ResourceRelease "/_release" "releaseId" u with
            | Some r => Ok r
            | None => Err errNoResource
            end
        end
    end.
Proof. reflexivity. Qed.

(** A block yields a resource exactly for a marked URL. *)
Lemma block_marked ty marker key u :
  marker <> EmptyString ->
  block ty marker key u =
    if Contains (Path u) marker then
      match Atoi (Get (Query u) key) with
      | Some n => Some {| Type_ := ty; Project := unescaped (segmentBefore (Path u) marker); ID := n |}
      | None => None
      end
    else None.
Proof.
  intros Hm. unfold block, unescaped, segmentBefore, Contains.
  destruct (Cut (Path u) marker) as [[before after]|] eqn:Hc; [|reflexivity].
  destruct (String.eqb_spec (Get (Query u) key) "") as [He|He]; simpl.
  { rewrite He, Atoi_of_empty. reflexivity. }
  destruct (Atoi (Get (Query u) key)) as [n|]; [|reflexivity].
  destruct (Split_head _ _ _ _ Hm Hc) as [rest ->].
  rewrite last_Split. reflexivity.
Qed.

Lemma block_Some ty marker key u r :
  marker <> EmptyString ->
  block ty marker key u = Some r ->
  exists n, marked u marker key n /\
            r = {| Type_ := ty; Project := unescaped (segmentBefore (Path u) marker); ID := n |}.
Proof.
  intros Hm. rewrite block_marked by assumption. unfold marked.
  destruct (Contains (Path u) marker); [|discriminate].
  destruct (Atoi (Get (Query u) key)) as [n|]; [|discriminate].
  intros [= <-]. eauto.
Qed.



Section Parsed.
Variable url_Parse : string -> result URL.


End Parsed.


End ParserFacts.


(** * Properties of the dispatcher *)
Module DispatcherFacts.
Import GoJSON mcp Claims Steps.

(** An object decodes into an [interface{}] as into a new map. *)
Lemma toInterface_object members :
  toInterface (JObject members) = VMap <$> objectInto members ∅.
Proof. reflexivity. Qed.

Lemma objectInto_None members acc :
  objectInto members acc = None <-> forallb (fun kv => decodable kv.2) members = false.
Proof.
  revert acc. induction members as [|[k x] members IH]; intros acc; simpl.
  - split; discriminate.
  - unfold decodable at 1. simpl. destruct (toInterface x); simpl.
    + apply IH.
    + split; reflexivity.
Qed.

Lemma storeMap_None v old : storeMap v old = None <-> storableArguments v = false.
Proof.
  destruct v as [| b | f | str | elems | members]; simpl;
    try (split; (reflexivity || discriminate)).
  rewrite <- (objectInto_None members (default ∅ old)).
  destruct (objectInto members (default ∅ old)); simpl; split; congruence.
Qed.

Lemma storeString_None v old : storeString v old = None <-> storableName v = false.
Proof. destruct v; simpl; split; (reflexivity || discriminate). Qed.

Lemma storeCallToolRequest_None key v c :
  storeCallToolRequest key v c = None <-> rejectedMember key v = true.
Proof.
  unfold storeCallToolRequest, rejectedMember.
  destruct (selects key "name").
  - rewrite negb_true_iff, <- (storeString_None v (Name c)).
    destruct (storeString v (Name c)); simpl; split; congruence.
  - destruct (selects key "arguments").
    + rewrite negb_true_iff, <- (storeMap_None v (Arguments c)).
      destruct (storeMap v (Arguments c)); simpl; split; congruence.
    + split; discriminate.
Qed.

Lemma storeMembers_None members c :
  storeMembers storeCallToolRequest members c = None <->
  existsb (fun kv => rejectedMember kv.1 kv.2) members = true.
Proof.
  revert c. induction members as [|[k x] members IH]; intros c; simpl.
  - split; discriminate.
  - pose proof (storeCallToolRequest_None k x c) as Hm.
    destruct (storeCallToolRequest k x c) as [c'|].
    + destruct (rejectedMember k x); [destruct Hm as [_ Hm]; discriminate (Hm eq_refl)|].
      simpl. apply IH.
    + destruct Hm as [Hm _]. rewrite (Hm eq_refl). split; reflexivity.
Qed.

(** [json.Unmarshal] returns an error exactly for [undecodable] parameters. *)
Lemma Unmarshal_error p : UnmarshalCallToolRequest p = None <-> undecodable p = true.
Proof.
  destruct p as [[| b | f | str | elems | members]|]; simpl;
    try (split; (reflexivity || discriminate)).
  apply storeMembers_None.
Qed.

(** ** Malformed parameters *)

(** C1, as stated, fails: the parameters [{}] have no member [name], yet
    [json.Unmarshal] accepts them and leaves [Name] empty, so the answer
    is -32601 from the registry lookup, not -32602; the same holds for
    the parameters [null].  On a server with a tool registered under the
    empty name, the handler of that tool is even called. *)
Lemma malformed_params_not_rejected :
  malformed (Some (JObject [])) = true /\
  malformed (Some JNull) = true /\
  processRequest twoTools (callWith (Some (JObject []))) =
    {| calls := [];
       sent := Some {| JSONRPC := "2.0"; Result := None;
                       Error := Some {| Code := -32601; Message := "Method not found";
                                        Data := VNil |};
                       ID := VString "r1" |} |} /\
  processRequest twoTools (callWith (Some JNull)) =
    {| calls := [];
       sent := Some {| JSONRPC := "2.0"; Result := None;
                       Error := Some {| Code := -32601; Message := "Method not found";
                                        Data := VNil |};
                       ID := VString "r1" |} |} /\
  calls (processRequest namelessTool (callWith (Some (JObject [])))) = [("", None)].
Proof.
  repeat split; vm_compute; reflexivity.
Qed.

(** C1, amended: a [tools/call] is answered with the error -32602
    "Invalid params", and no handler is called, exactly when
    [json.Unmarshal] does not decode its parameters into a
    [CallToolRequest]: they are absent, or a JSON boolean, number, string
    or array, or an object with a member [name] that is no string or
    [null], or with a member [arguments] that is no object or [null] or
    holds a number out of range. *)
Theorem undecodable_params_rejected s req :
  Method req = "tools/call" ->
  (undecodable (Params req) = true ->
   processRequest s req =
     {| calls := [];
        sent := Some {| JSONRPC := "2.0"; Result := None;
                        Error := Some {| Code := -32602; Message := "Invalid params";
                                         Data := VNil |};
                        ID := ReqID req |} |}) /\
  (forall response e,
     sent (processRequest s req) = Some response ->
     Error response = Some e -> Code e = -32602 ->
     undecodable (Params req) = true).
Proof.
  intros Hm. split.
  - intros Hu. apply Unmarshal_error in Hu. tools_call Hm. rewrite Hu. reflexivity.
  - intros response e. rewrite <- Unmarshal_error. tools_call Hm.
    destruct (UnmarshalCallToolRequest (Params req)) as [callReq|]; [|reflexivity].
    destruct (Handlers s !! Name callReq) as [handler|]; simpl.
    + destruct (handler (Arguments callReq)) as [result [msg|]]; simpl;
        intros Hs He Hc; simplify_eq; simpl in *; simplify_eq.
    + intros Hs He Hc; simplify_eq; simpl in *; simplify_eq.
Qed.

Lemma undecodable_params_rejected_witness :
  Method (callWith (Some (JArray []))) = "tools/call" /\
  undecodable (Params (callWith (Some (JArray [])))) = true /\
  processRequest twoTools (callWith (Some (JArray []))) =
    {| calls := [];
       sent := Some {| JSONRPC := "2.0"; Result := None;
                       Error := Some {| Code := -32602; Message := "Invalid params";
                                        Data := VNil |};
                       ID := VString "r1" |} |}.
Proof.
  split; [reflexivity|]. split; [reflexivity|].
  apply (undecodable_params_rejected twoTools (callWith (Some (JArray []))));
    reflexivity.
Defined.

(** ** Unknown tools and failing handlers *)

(** C4: a [tools/call] with well-formed parameters naming a tool that is
    not in the registry is answered with the error -32601; the response
    has an error object and no result, and no handler is called. *)
Theorem unknown_tool_not_found s req callReq :
  Method req = "tools/call" ->
  UnmarshalCallToolRequest (Params req) = Some callReq ->
  Handlers s !! Name callReq = None ->
  processRequest s req =
    {| calls := [];
       sent := Some {| JSONRPC := "2.0"; Result := None;
                       Error := Some {| Code := -32601; Message := "Method not found";
                                        Data := VNil |};
                       ID := ReqID req |} |}.
Proof.
  intros Hm Hu Hh. tools_call Hm. rewrite Hu. cbv beta iota. rewrite Hh. reflexivity.
Qed.

Lemma unknown_tool_not_found_witness :
  processRequest twoTools (callWith (naming "get_release")) =
    {| calls := [];
       sent := Some {| JSONRPC := "2.0"; Result := None;
                       Error := Some {| Code := -32601; Message := "Method not found";
                                        Data := VNil |};
                       ID := VString "r1" |} |}.
Proof.
  apply (unknown_tool_not_found twoTools (callWith (naming "get_release"))
           {| Name := "get_release"; Arguments := Some ∅ |});
    vm_compute; reflexivity.
Defined.

(** C3: a [tools/call] naming a registered tool whose handler returns a
    failure is answered with a JSON-RPC success envelope: no error
    object, and as result a [CallToolResult] with [IsError] set and, as
    its content, one text block holding the failure's message.  The
    handler is called once, with the decoded arguments. *)
Theorem handler_failure_in_band s req callReq handler result msg :
  Method req = "tools/call" ->
  UnmarshalCallToolRequest (Params req) = Some callReq ->
  Handlers s !! Name callReq = Some handler ->
  handler (Arguments callReq) = (result, Some msg) ->
  processRequest s req =
    {| calls := [(Name callReq, Arguments callReq)];
       sent := Some {| JSONRPC := "2.0";
                       Result := Some (ToolFailed
                          {| ResultContent := [{| ContentType := "text"; Text := msg |}];
                             IsError := true |});
                       Error := None;
                       ID := ReqID req |} |}.
Proof.
  intros Hm Hu Hh Hr. tools_call Hm. rewrite Hu. cbv beta iota.
  rewrite Hh. cbv beta iota. rewrite Hr. reflexivity.
Qed.

Lemma handler_failure_in_band_witness :
  processRequest twoTools (callWith (naming "bad")) =
    {| calls := [("bad", Some ∅)];
       sent := Some {| JSONRPC := "2.0";
                       Result := Some (ToolFailed
                          {| ResultContent := [{| ContentType := "text"; Text := "boom" |}];
                             IsError := true |});
                       Error := None;
                       ID := VString "r1" |} |}.
Proof.
  apply (handler_failure_in_band twoTools (callWith (naming "bad"))
           {| Name := "bad"; Arguments := Some ∅ |} failing None "boom");
    vm_compute; reflexivity.
Defined.

(** ** All branches *)

(** [processRequest] copies the identifier it holds into every
    response it sends (line 120). *)
Lemma ID_copied s req response :
  sent (processRequest s req) = Some response ->
  ID response = ReqID req.
Proof.
  unfold processRequest. intros H.
  repeat case_match; simpl in H; simplify_eq; reflexivity.
Qed.

(** C8: every response [processRequest] sends has exactly one of a
    result and an error object, never both and never neither; so the
    marshaled text has exactly one of the members [result] and [error]. *)
Theorem result_xor_error s req response :
  sent (processRequest s req) = Some response ->
  ((is_Some (Result response) /\ Error response = None) \/
   (Result response = None /\ is_Some (Error response))) /\
  xorb (hasResult response) (hasError response) = true.
Proof.
  unfold processRequest, hasResult, hasError. intros H.
  repeat case_match; simpl in H; simplify_eq; simpl; eauto.
Qed.

Lemma result_xor_error_witness :
  exists response,
    sent (processRequest twoTools (callWith (naming "nope"))) = Some response /\
    ((is_Some (Result response) /\ Error response = None) \/
     (Result response = None /\ is_Some (Error response))).
Proof.
  eexists. split; [vm_compute; reflexivity|].
  apply (result_xor_error twoTools (callWith (naming "nope"))).
  vm_compute; reflexivity.
Defined.

(** C9: a request with the method [notifications/initialized] gets no
    response: [processRequest] returns before it marshals or sends
    anything, and calls no handler. *)
Theorem notification_unanswered s req :
  Method req = "notifications/initialized" ->
  processRequest s req = {| calls := []; sent := None |}.
Proof.
  intros Hm. unfold processRequest. rewrite Hm. reflexivity.
Qed.

Lemma notification_unanswered_witness :
  processRequest twoTools
    {| ReqJSONRPC := "2.0"; Method := "notifications/initialized";
       Params := None; ReqID := VNil |} = {| calls := []; sent := None |}.
Proof.
  apply (notification_unanswered twoTools
           {| ReqJSONRPC := "2.0"; Method := "notifications/initialized";
              Params := None; ReqID := VNil |}).
  reflexivity.
Defined.

End DispatcherFacts.


(** * Properties of the request receiver *)
Module ReceiverFacts.
Import GoURL GoJSON mcp Claims Steps.

(** C5: [handleMessage] answers 202 Accepted with an empty body exactly
    when the method is POST, the [sessionId] parameter is non-empty and
    names a session of the directory, and the body decodes as a JSON-RPC
    request; it answers 405 exactly when the method is not POST, 400
    when the [sessionId] is missing or the body does not decode, 404 when
    the [sessionId] names no session.  The checks run in the order
    method, [sessionId], directory, body.  A request is handed to
    [processRequest] only with the answer 202. *)
Theorem handleMessage_statuses (sessions : gmap string Chan) (r : Request) :
  ((HTTPMethod r = "POST" /\ sessionIdOf r <> "" /\
    is_Some (sessions !! sessionIdOf r) /\
    is_Some (DecodeJSONRPCRequest (Body r)))
   <-> (handleMessage sessions r).1 = accepted) /\
  (HTTPMethod r <> "POST" <-> StatusCode (handleMessage sessions r).1 = 405) /\
  (HTTPMethod r = "POST" -> sessionIdOf r = "" ->
   StatusCode (handleMessage sessions r).1 = 400) /\
  (HTTPMethod r = "POST" -> sessionIdOf r <> "" ->
   sessions !! sessionIdOf r = None ->
   StatusCode (handleMessage sessions r).1 = 404) /\
  (HTTPMethod r = "POST" -> sessionIdOf r <> "" ->
   is_Some (sessions !! sessionIdOf r) ->
   DecodeJSONRPCRequest (Body r) = None ->
   StatusCode (handleMessage sessions r).1 = 400) /\
  (StatusCode (handleMessage sessions r).1 = 400 ->
   sessionIdOf r = "" \/ DecodeJSONRPCRequest (Body r) = None) /\
  (StatusCode (handleMessage sessions r).1 = 404 ->
   sessions !! sessionIdOf r = None) /\
  (forall req msgChan,
     (handleMessage sessions r).2 = Some (req, msgChan) <->
     (handleMessage sessions r).1 = accepted /\
     DecodeJSONRPCRequest (Body r) = Some req /\
     sessions !! sessionIdOf r = Some msgChan).
Proof.
  unfold handleMessage, sessionIdOf, accepted, http_Error.
  destruct (String.eqb_spec (HTTPMethod r) "POST") as [Hm|Hm]; simpl.
  2:{ repeat split; intros; settle. }
  destruct (String.eqb_spec (Get (Query (RequestURL r)) "sessionId") "") as [Hs|Hs];
    simpl.
  { repeat split; intros; settle. }
  destruct (sessions !! Get (Query (RequestURL r)) "sessionId") as [ch|] eqn:Hl; simpl.
  2:{ repeat split; intros; settle. }
  destruct (DecodeJSONRPCRequest (Body r)) as [req0|] eqn:Hd; simpl;
    repeat split; intros; settle.
Qed.

Lemma handleMessage_statuses_witness :
  (handleMessage oneSession (postTo "sessionId=S" (Some listRequest))).1 = accepted /\
  StatusCode (handleMessage oneSession (postTo "sessionId=T" (Some listRequest))).1 = 404.
Proof.
  pose proof (handleMessage_statuses oneSession (postTo "sessionId=S" (Some listRequest)))
    as (H202 & _).
  pose proof (handleMessage_statuses oneSession (postTo "sessionId=T" (Some listRequest)))
    as (_ & _ & _ & H404 & _).
  split.
  - apply H202. repeat split; try (vm_compute; eauto; fail). discriminate.
  - apply H404; try reflexivity. discriminate.
Defined.

End ReceiverFacts.


(** * Properties of the streaming transport *)
Module TransportFacts.
Import GoJSON mcp Claims Steps.

(** ** What is written to the stream *)

Lemma announcedFirst_step id s s' :
  announcedFirst id s -> step s s' -> announcedFirst id s'.
Proof.
  intros [Hid Hw] Hstep. destruct Hstep as
    [s Hst | s msg rest Hst Hq | s | s Hst Hc | s msg Hr | s before msg after Hs Hlen];
    (split; [exact Hid|]); simpl.
  - rewrite Hst in Hw. rewrite Hw, Hid. exists []. reflexivity.
  - rewrite Hst in Hw. destruct Hw as [msgs Hw]. exists (msgs ++ [msg]).
    rewrite Hw, fmap_app. reflexivity.
  - exact Hw.
  - rewrite Hst in Hw. exact Hw.
  - exact Hw.
  - exact Hw.
Qed.

Lemma announcedFirst_reachable id s : reachable id s -> announcedFirst id s.
Proof.
  intros (s0 & Hopen & Hsteps). simpl in Hopen. injection Hopen as <-.
  revert s Hsteps. apply rtc_ind_r.
  - split; reflexivity.
  - intros s s' _ Hstep IH. eapply announcedFirst_step; eassumption.
Qed.

Lemma endpointEvent_not_message id msg : endpointEvent id <> messageEvent msg.
Proof. unfold endpointEvent, messageEvent. simpl. discriminate. Qed.

(** C6: on the stream of a session opened under the identifier [id],
    the first event written is the endpoint event, whose data is the
    path [/message?sessionId=id], and every later event is a message
    event: nothing is written before the endpoint event, also when
    responses are queued before it.  While nothing is written, the next
    write is the endpoint event. *)
Theorem endpoint_event_first id s :
  reachable id s ->
  (written s = [] \/
   exists msgs, written s = endpointEvent id :: (messageEvent <$> msgs)) /\
  (stage s = Announcing ->
   written s = [] /\ exists s', step s s' /\ written s' = [endpointEvent id]) /\
  endpointEvent id =
    "event: endpoint" +:+ nl +:+ "data: " +:+ ("/message?sessionId=" +:+ id) +:+ nl +:+ nl /\
  (forall msg, endpointEvent id <> messageEvent msg).
Proof.
  intros Hr. destruct (announcedFirst_reachable _ _ Hr) as [Hid Hw].
  split; [|split; [|split]].
  - destruct (stage s); eauto.
  - intros Hst. rewrite Hst in Hw. split; [exact Hw|].
    eexists. split; [apply step_announce; exact Hst|].
    simpl. rewrite Hw, Hid. reflexivity.
  - reflexivity.
  - apply endpointEvent_not_message.
Qed.

Lemma streaming_reachable : reachable "S" streaming.
Proof.
  eexists. split; [reflexivity|].
  run_step ltac:(apply step_announce; reflexivity).
  run_step ltac:(eapply (step_accept _ "m1"); reflexivity).
  run_step ltac:(eapply (step_send _ []); [reflexivity|cbn; unfold chanCap; lia]).
  run_step ltac:(eapply step_deliver; reflexivity).
  apply rtc_refl.
Qed.

Lemma endpoint_event_first_witness :
  reachable "S" streaming /\
  (written streaming = [] \/
   exists msgs, written streaming = endpointEvent "S" :: (messageEvent <$> msgs)).
Proof.
  split; [exact streaming_reachable|].
  apply (endpoint_event_first "S" streaming). exact streaming_reachable.
Defined.

(** ** Sends after the session is gone *)

(** The session is in the directory exactly while [handleSSE] has not
    returned. *)
Lemma registered_until_return id s :
  reachable id s -> registered s = false <-> stage s = Returned.
Proof.
  intros (s0 & Hopen & Hsteps). simpl in Hopen. injection Hopen as <-.
  revert s Hsteps. apply rtc_ind_r.
  - simpl. split; discriminate.
  - intros s s' _ Hstep IH.
    destruct Hstep as
      [s Hst | s msg rest Hst Hq | s | s Hst Hc | s msg Hr | s before msg after Hs Hlen];
      simpl; try exact IH.
    + split; [|discriminate]. intros Hreg. apply IH in Hreg. congruence.
    + split; [|discriminate]. intros Hreg. apply IH in Hreg. congruence.
    + split; reflexivity.
Qed.

(** Once [handleSSE] has returned, a step is a cancellation or a send
    that finds room in the channel. *)
Lemma step_after_return s s' :
  stage s = Returned -> registered s = false -> step s s' ->
  stage s' = Returned /\ registered s' = false /\ written s' = written s /\
  ((msgChan s' = msgChan s /\ senders s' = senders s) \/
   ((length (msgChan s) < chanCap)%nat /\
    exists before msg after,
      senders s = before ++ msg :: after /\ senders s' = before ++ after /\
      msgChan s' = msgChan s ++ [msg])).
Proof.
  intros Hst Hreg Hstep.
  destruct Hstep as
    [s Hs | s msg rest Hs Hq | s | s Hs Hc | s msg Hr | s before msg after Hs Hlen];
    simpl; try congruence.
  - repeat split; try assumption. left. split; reflexivity.
  - repeat split; try assumption. right. split; [assumption|]. eauto 10.
Qed.

Lemma nothing_written_after_return s s' :
  stage s = Returned -> registered s = false -> rtc step s s' ->
  stage s' = Returned /\ registered s' = false /\ written s' = written s /\
  exists more, msgChan s' = msgChan s ++ more.
Proof.
  intros Hst Hreg. revert s'. apply rtc_ind_r.
  { repeat split; try assumption. exists []. symmetry. apply app_nil_r. }
  intros s1 s2 Hsteps Hstep IH.
  destruct IH as (Hst1 & Hreg1 & Hw1 & more & Hq1).
  destruct (step_after_return _ _ Hst1 Hreg1 Hstep) as (? & ? & Hw & Hq).
  repeat split; try assumption; [congruence|].
  destruct Hq as [[Hq _]|(_ & before & msg & after & _ & _ & Hq)].
  - exists more. congruence.
  - exists (more ++ [msg]). rewrite Hq, Hq1, app_assoc. reflexivity.
Qed.

Lemma blocked_on_full_channel s s' :
  stage s = Returned -> registered s = false ->
  length (msgChan s) = chanCap -> rtc step s s' ->
  senders s' = senders s /\ msgChan s' = msgChan s.
Proof.
  intros Hst Hreg Hfull. revert s'. apply rtc_ind_r; [auto|].
  intros s1 s2 Hsteps Hstep IH.
  destruct IH as (Hs1 & Hq1).
  destruct (nothing_written_after_return _ _ Hst Hreg Hsteps) as (Hst1 & Hreg1 & _).
  destruct (step_after_return _ _ Hst1 Hreg1 Hstep) as (_ & _ & _ & [[Hq Hs]|[Hlt _]]).
  - split; congruence.
  - rewrite Hq1, Hfull in Hlt. lia.
Qed.

(** The session [abandoned] arises when eleven requests are accepted
    and the client leaves before their responses are sent. *)
Lemma abandoned_reachable : reachable "S" abandoned.
Proof.
  eexists. split; [reflexivity|].
  run_step ltac:(apply step_announce; reflexivity).
  do 11 run_step ltac:(eapply step_accept; reflexivity).
  run_step ltac:(apply step_cancel).
  run_step ltac:(apply step_return; reflexivity).
  do 10 run_step
    ltac:(eapply (step_send _ []); [reflexivity|cbn; unfold chanCap; lia]).
  apply rtc_refl.
Qed.

(** C2, as stated, fails: the session [S] is removed from the directory
    and its channel is full; the send of the response [m11] never
    completes, whatever happens next. *)
Lemma send_to_removed_session_blocks :
  reachable "S" abandoned /\
  registered abandoned = false /\
  length (msgChan abandoned) = chanCap /\
  senders abandoned = ["m11"] /\
  (forall s', rtc step abandoned s' -> senders s' = ["m11"]).
Proof.
  split; [exact abandoned_reachable|]. repeat split.
  intros s' Hsteps.
  apply (blocked_on_full_channel abandoned s'); auto.
Qed.

(** C2, amended: once the session is removed from the directory, a
    [processRequest] that holds its channel still sends on it.  The send
    completes at once when the channel holds fewer than 10 responses,
    and the response is dropped: from then on nothing is written to the
    stream, nothing leaves the channel, and the session stays removed.
    When the channel holds 10 responses, no send on it ever completes. *)
Theorem send_after_removal id s :
  reachable id s ->
  registered s = false ->
  (forall before msg after,
     senders s = before ++ msg :: after ->
     (length (msgChan s) < chanCap)%nat ->
     exists s', step s s' /\ senders s' = before ++ after /\
                msgChan s' = msgChan s ++ [msg] /\ written s' = written s) /\
  (forall s', rtc step s s' ->
     written s' = written s /\ registered s' = false /\
     exists more, msgChan s' = msgChan s ++ more) /\
  (length (msgChan s) = chanCap ->
   forall s', rtc step s s' -> senders s' = senders s /\ msgChan s' = msgChan s).
Proof.
  intros Hr Hreg.
  assert (Hst : stage s = Returned) by (apply (registered_until_return id); assumption).
  split; [|split].
  - intros before msg after Hs Hlen. eexists. split.
    + apply (step_send s before msg after); assumption.
    + simpl. auto.
  - intros s' Hsteps.
    destruct (nothing_written_after_return _ _ Hst Hreg Hsteps) as (_ & ? & ? & ?). auto.
  - intros Hfull s' Hsteps. apply blocked_on_full_channel; assumption.
Qed.

Lemma abandonedWithRoom_reachable : reachable "S" abandonedWithRoom.
Proof.
  eexists. split; [reflexivity|].
  run_step ltac:(apply step_announce; reflexivity).
  do 2 run_step ltac:(eapply step_accept; reflexivity).
  run_step ltac:(apply step_cancel).
  run_step ltac:(apply step_return; reflexivity).
  run_step ltac:(eapply (step_send _ []); [reflexivity|cbn; unfold chanCap; lia]).
  apply rtc_refl.
Qed.

Lemma send_after_removal_witness :
  reachable "S" abandonedWithRoom /\
  registered abandonedWithRoom = false /\
  exists s', step abandonedWithRoom s' /\ senders s' = [] /\
             msgChan s' = ["m1"; "m2"] /\ written s' = [endpointEvent "S"].
Proof.
  split; [exact abandonedWithRoom_reachable|]. split; [reflexivity|].
  destruct (send_after_removal "S" abandonedWithRoom abandonedWithRoom_reachable eq_refl)
    as (Hsend & _).
  apply (Hsend [] "m2" []); [reflexivity|].
  cbn. unfold chanCap. lia.
Defined.

End TransportFacts.


(** * More properties of the dispatcher and the registry *)
Module ServerFacts.
Import GoURL GoJSON mcp Claims mcpServer Steps.

(** ** The registry *)

(** X1: in a server built by [NewServer] and [RegisterTool], the tools
    and the handlers have the same names, and every tool is stored under
    its own name. *)
Theorem registry_names_agree s :
  built s ->
  dom (Tools s) = dom (Handlers s) /\
  (forall name t, Tools s !! name = Some t -> ToolName t = name).
Proof.
  induction 1 as [|s tool handler Hb [IHd IHn]].
  - split; [reflexivity|]. intros name t Ht. simpl in Ht.
    rewrite lookup_empty in Ht. discriminate.
  - split.
    + simpl. rewrite !dom_insert_L, IHd. reflexivity.
    + intros name t. simpl. rewrite lookup_insert.
      case_decide as Hn; [intros [= <-]; exact Hn|apply IHn].
Qed.

Lemma registry_names_agree_witness :
  dom (Tools twoTools) = dom (Handlers twoTools) /\
  (forall name t, Tools twoTools !! name = Some t -> ToolName t = name).
Proof.
  apply (registry_names_agree twoTools).
  unfold twoTools. repeat constructor.
Defined.

Lemma built_has_handler s name :
  built s -> is_Some (Handlers s !! name) <-> is_Some (Tools s !! name).
Proof.
  intros Hb. destruct (registry_names_agree s Hb) as [Hd _].
  rewrite <- !elem_of_dom, Hd. reflexivity.
Qed.

(** X2: registering a tool under a name replaces what was registered
    under it: a [tools/call] naming it is answered as if nothing else
    had been registered, and a [tools/call] naming another tool is
    answered as before the registration. *)
Theorem registration_replaces s tool handler req callReq :
  Method req = "tools/call" ->
  UnmarshalCallToolRequest (Params req) = Some callReq ->
  (Name callReq = ToolName tool ->
   processRequest (RegisterTool s tool handler) req =
   processRequest (RegisterTool NewServer tool handler) req) /\
  (Name callReq <> ToolName tool ->
   processRequest (RegisterTool s tool handler) req = processRequest s req).
Proof.
  intros Hm Hu. split; intros Hn.
  - tools_call Hm. rewrite Hu. cbv beta iota. simpl.
    rewrite Hn, !lookup_insert_eq. reflexivity.
  - tools_call Hm. rewrite Hu. cbv beta iota. simpl.
    rewrite lookup_insert_ne by congruence. reflexivity.
Qed.

Lemma registration_replaces_witness :
  processRequest (RegisterTool twoTools (tool "bad") echo) (callWith (naming "bad")) =
  processRequest (RegisterTool NewServer (tool "bad") echo) (callWith (naming "bad")) /\
  processRequest (RegisterTool twoTools (tool "bad") echo) (callWith (naming "get_build")) =
  processRequest twoTools (callWith (naming "get_build")).
Proof.
  pose proof (registration_replaces twoTools (tool "bad") echo (callWith (naming "bad"))
                {| Name := "bad"; Arguments := Some ∅ |} eq_refl eq_refl) as [Hsame _].
  pose proof (registration_replaces twoTools (tool "bad") echo
                (callWith (naming "get_build"))
                {| Name := "get_build"; Arguments := Some ∅ |} eq_refl eq_refl) as [_ Hother].
  split; [apply Hsame; reflexivity|apply Hother; discriminate].
Defined.

Lemma names_of_listed (l : list (string * Tool)) :
  Forall (fun kt => ToolName kt.2 = kt.1) l -> ToolName <$> l.*2 = l.*1.
Proof.
  induction 1 as [|[k t] l Hkt Hl IH]; [reflexivity|].
  rewrite !fmap_cons. simpl in Hkt. simpl. f_equal; [exact Hkt|exact IH].
Qed.

(** X3: [tools/list] is answered with the registered tools: in a built
    server each tool registered (last) under a name is listed once, the
    listed names are distinct, and nothing else is listed; no handler
    is called. *)
Theorem tools_list_lists_registry s req :
  built s ->
  Method req = "tools/list" ->
  exists tools,
    processRequest s req =
      {| calls := [];
         sent := Some {| JSONRPC := "2.0"; Result := Some (ToolsListed tools);
                         Error := None; ID := ReqID req |} |} /\
    NoDup (ToolName <$> tools) /\
    length tools = size (Tools s) /\
    (forall t, t ∈ tools <-> Tools s !! ToolName t = Some t).
Proof.
  intros Hb Hm. destruct (registry_names_agree s Hb) as [_ Hn].
  exists (map_to_list (Tools s)).*2. split; [|split; [|split]].
  - unfold processRequest. rewrite Hm. reflexivity.
  - rewrite names_of_listed; [apply NoDup_fst_map_to_list|].
    apply Forall_forall. intros [k t] Hkt. apply elem_of_map_to_list in Hkt.
    simpl. apply Hn. exact Hkt.
  - rewrite length_fmap. apply length_map_to_list.
  - intros t. rewrite list_elem_of_fmap. split.
    + intros ([k t'] & -> & Hkt). apply elem_of_map_to_list in Hkt. simpl.
      rewrite (Hn _ _ Hkt). exact Hkt.
    + intros Ht. exists (ToolName t, t). split; [reflexivity|].
      apply elem_of_map_to_list. exact Ht.
Qed.

Lemma tools_list_lists_registry_witness :
  exists tools,
    processRequest twoTools
      {| ReqJSONRPC := "2.0"; Method := "tools/list"; Params := None; ReqID := VNil |} =
      {| calls := [];
         sent := Some {| JSONRPC := "2.0"; Result := Some (ToolsListed tools);
                         Error := None; ID := VNil |} |} /\
    NoDup (ToolName <$> tools) /\
    length tools = size (Tools twoTools) /\
    (forall t, t ∈ tools <-> Tools twoTools !! ToolName t = Some t).
Proof.
  apply (tools_list_lists_registry twoTools
           {| ReqJSONRPC := "2.0"; Method := "tools/list"; Params := None; ReqID := VNil |}).
  - unfold twoTools. repeat constructor.
  - reflexivity.
Defined.

(** X4: in a built server the tools [tools/list] lists are the tools
    [tools/call] can call: a call with decodable parameters runs a
    handler when its name is that of a listed tool, and is answered
    -32601 without running one otherwise. *)
Theorem listed_tools_are_callable s req callReq :
  built s ->
  Method req = "tools/call" ->
  UnmarshalCallToolRequest (Params req) = Some callReq ->
  ((exists t, Tools s !! ToolName t = Some t /\ ToolName t = Name callReq) ->
   calls (processRequest s req) = [(Name callReq, Arguments callReq)] /\
   exists response,
     sent (processRequest s req) = Some response /\
     is_Some (Result response) /\ Error response = None) /\
  ((forall t, Tools s !! ToolName t = Some t -> ToolName t <> Name callReq) ->
   processRequest s req =
     {| calls := [];
        sent := Some {| JSONRPC := "2.0"; Result := None;
                        Error := Some {| Code := -32601; Message := "Method not found";
                                         Data := VNil |};
                        ID := ReqID req |} |}).
Proof.
  intros Hb Hm Hu. destruct (registry_names_agree s Hb) as [_ Hn].
  pose proof (built_has_handler s (Name callReq) Hb) as Hh. split.
  - intros (t & Ht & Hname). rewrite Hname in Ht.
    destruct Hh as [_ Hh]. destruct (Hh (mk_is_Some _ _ Ht)) as [handler Hhandler].
    tools_call Hm. rewrite Hu. cbv beta iota. rewrite Hhandler. cbv beta iota.
    destruct (handler (Arguments callReq)) as [result [msg|]]; simpl;
      (split; [reflexivity|]); eexists; (split; [reflexivity|]); simpl; eauto.
  - intros Hnone. tools_call Hm. rewrite Hu. cbv beta iota.
    destruct (Handlers s !! Name callReq) as [handler|] eqn:Hhandler; [|reflexivity].
    destruct Hh as [Hh _]. destruct Hh as [t Ht]; [eauto|].
    pose proof (Hn _ _ Ht) as Hname. rewrite <- Hname in Ht.
    destruct (Hnone t Ht Hname).
Qed.

Lemma listed_tools_are_callable_witness :
  calls (processRequest twoTools (callWith (naming "get_build"))) = [("get_build", Some ∅)] /\
  processRequest twoTools (callWith (naming "get_release")) =
    {| calls := [];
       sent := Some {| JSONRPC := "2.0"; Result := None;
                       Error := Some {| Code := -32601; Message := "Method not found";
                                        Data := VNil |};
                       ID := VString "r1" |} |}.
Proof.
  assert (Hb : built twoTools) by (unfold twoTools; repeat constructor).
  pose proof (listed_tools_are_callable twoTools (callWith (naming "get_build"))
                {| Name := "get_build"; Arguments := Some ∅ |} Hb eq_refl eq_refl)
    as [Hcall _].
  pose proof (listed_tools_are_callable twoTools (callWith (naming "get_release"))
                {| Name := "get_release"; Arguments := Some ∅ |} Hb eq_refl eq_refl)
    as [_ Hnone].
  split.
  - apply Hcall. exists (tool "get_build"). split; reflexivity.
  - apply Hnone. intros t Ht Hname. simpl in Hname. rewrite Hname in Ht.
    vm_compute in Ht. discriminate.
Defined.

End ServerFacts.


(** * More properties of the request path *)
Module RequestFacts.
Import GoURL GoJSON mcp Claims mcpServer Steps.

(** ** What [processRequest] answers and what it reads *)

(** X5: [processRequest] sends a response for every request but one:
    it sends none exactly when the method is [notifications/initialized]. *)
Theorem answered_unless_notification s req :
  sent (processRequest s req) = None <-> Method req = "notifications/initialized".
Proof.
  split.
  - unfold processRequest.
    destruct (String.eqb_spec (Method req) "tools/list"); [discriminate|].
    destruct (String.eqb_spec (Method req) "tools/call").
    { destruct (UnmarshalCallToolRequest (Params req)) as [callReq|]; [|discriminate].
      destruct (Handlers s !! Name callReq) as [handler|]; [|discriminate].
      destruct (handler (Arguments callReq)) as [result [msg|]]; discriminate. }
    destruct (String.eqb_spec (Method req) "initialize"); [discriminate|].
    destruct (String.eqb_spec (Method req) "notifications/initialized");
      [trivial|discriminate].
  - intros Hm. unfold processRequest. rewrite Hm. reflexivity.
Qed.

(** X6: [processRequest] calls at most one handler, and only in a
    [tools/call]: the handler registered under the decoded name, with
    the decoded arguments. *)
Theorem handler_called_for_tools_call_only s req :
  (length (calls (processRequest s req)) <= 1)%nat /\
  (forall name arguments,
     (name, arguments) ∈ calls (processRequest s req) ->
     Method req = "tools/call" /\
     UnmarshalCallToolRequest (Params req) =
       Some {| Name := name; Arguments := arguments |} /\
     is_Some (Handlers s !! name)).
Proof.
  unfold processRequest.
  destruct (String.eqb_spec (Method req) "tools/list");
    [simpl; split; [lia|intros ? ? Hnil; inversion Hnil]|].
  destruct (String.eqb_spec (Method req) "tools/call") as [Hm|].
  - destruct (UnmarshalCallToolRequest (Params req)) as [[name0 args0]|];
      [|simpl; split; [lia|intros ? ? Hnil; inversion Hnil]].
    simpl. destruct (Handlers s !! name0) as [handler|] eqn:Hh;
      [|simpl; split; [lia|intros ? ? Hnil; inversion Hnil]].
    destruct (handler args0) as [result err]. simpl. split; [lia|].
    intros name arguments Hin. apply list_elem_of_singleton in Hin.
    injection Hin as -> ->. rewrite Hh. eauto.
  - repeat case_match; simpl; (split; [lia|intros ? ? Hnil; inversion Hnil]).
Qed.

Lemma handler_called_for_tools_call_only_witness :
  ("bad", Some ∅) ∈ calls (processRequest twoTools (callWith (naming "bad"))) /\
  is_Some (Handlers twoTools !! "bad").
Proof.
  assert (Hin : ("bad", Some (∅ : gmap string value))
                  ∈ calls (processRequest twoTools (callWith (naming "bad"))))
    by (vm_compute; apply list_elem_of_here).
  split; [exact Hin|].
  destruct (handler_called_for_tools_call_only twoTools (callWith (naming "bad")))
    as [_ Hcalls].
  apply (Hcalls "bad" (Some ∅) Hin).
Defined.

(** X7: [processRequest] never reads the version tag of the request,
    and reads the parameters only in a [tools/call]: every other method
    is answered the same whatever the parameters are. *)
Theorem version_and_params_unread s req :
  (forall version, processRequest s (withVersion req version) = processRequest s req) /\
  (Method req <> "tools/call" ->
   forall params, processRequest s (withParams req params) = processRequest s req).
Proof.
  split; [reflexivity|].
  intros Hm params. unfold processRequest, withParams. simpl.
  destruct (String.eqb_spec (Method req) "tools/list"); [reflexivity|].
  destruct (String.eqb_spec (Method req) "tools/call"); [contradiction|].
  reflexivity.
Qed.

Lemma version_and_params_unread_witness :
  processRequest twoTools
    {| ReqJSONRPC := "1.0"; Method := "initialize"; Params := Some (JString "x");
       ReqID := VNil |} =
  processRequest twoTools
    {| ReqJSONRPC := "2.0"; Method := "initialize"; Params := None; ReqID := VNil |}.
Proof.
  destruct (version_and_params_unread twoTools
              {| ReqJSONRPC := "2.0"; Method := "initialize"; Params := None;
                 ReqID := VNil |}) as [_ Hp].
  destruct (version_and_params_unread twoTools
              {| ReqJSONRPC := "2.0"; Method := "initialize";
                 Params := Some (JString "x"); ReqID := VNil |}) as [Hv _].
  assert (Hm : "initialize" <> "tools/call") by discriminate.
  exact (eq_trans (Hv "1.0") (Hp Hm (Some (JString "x")))).
Defined.

(** ** The bodies [handleMessage] takes *)

Lemma storeJSONRPCRequest_None key v r :
  storeJSONRPCRequest key v r = None <-> rejectedField key v = true.
Proof.
  unfold storeJSONRPCRequest, rejectedField.
  destruct (selects key "jsonrpc").
  { rewrite negb_true_iff, <- (DispatcherFacts.storeString_None v (ReqJSONRPC r)).
    destruct (storeString v (ReqJSONRPC r)); simpl; split; congruence. }
  destruct (selects key "method").
  { rewrite negb_true_iff, <- (DispatcherFacts.storeString_None v (Method r)).
    destruct (storeString v (Method r)); simpl; split; congruence. }
  destruct (selects key "params"); [split; discriminate|].
  destruct (selects key "id"); [|split; discriminate].
  unfold decodable. destruct (toInterface v); simpl; split; congruence.
Qed.

Lemma storeFields_None members r :
  storeMembers storeJSONRPCRequest members r = None <->
  existsb (fun kv => rejectedField kv.1 kv.2) members = true.
Proof.
  revert r. induction members as [|[k x] members IH]; intros r; simpl.
  - split; discriminate.
  - pose proof (storeJSONRPCRequest_None k x r) as Hm.
    destruct (storeJSONRPCRequest k x r) as [r'|].
    + destruct (rejectedField k x); [destruct Hm as [_ Hm]; discriminate (Hm eq_refl)|].
      simpl. apply IH.
    + destruct Hm as [Hm _]. rewrite (Hm eq_refl). split; reflexivity.
Qed.

Lemma Decode_error body : DecodeJSONRPCRequest body = None <-> rejectedBody body = true.
Proof.
  destruct body as [[| b | f | str | elems | members]|]; simpl;
    try (split; (reflexivity || discriminate)).
  apply storeFields_None.
Qed.

(** X8: a POST for a session of the directory is answered 400
    "Invalid JSON" exactly when the body holds no JSON text, or a JSON
    boolean, number, string or array, or an object whose [jsonrpc] or
    [method] is no string or [null] or whose [id] holds a number out of
    range; every other body, whatever its [params], is accepted with 202. *)
Theorem invalid_json_bodies (sessions : gmap string Chan) (r : Request) :
  HTTPMethod r = "POST" ->
  sessionIdOf r <> "" ->
  is_Some (sessions !! sessionIdOf r) ->
  (rejectedBody (Body r) = true ->
   handleMessage sessions r = (http_Error "Invalid JSON" 400, None)) /\
  (rejectedBody (Body r) = false ->
   (handleMessage sessions r).1 = accepted /\ is_Some (handleMessage sessions r).2).
Proof.
  intros Hm Hs [msgChan Hl]. unfold handleMessage, sessionIdOf in *.
  rewrite Hm. simpl.
  destruct (String.eqb_spec (Get (Query (RequestURL r)) "sessionId") ""); [contradiction|].
  rewrite Hl. pose proof (Decode_error (Body r)) as Hd.
  destruct (DecodeJSONRPCRequest (Body r)) as [req|]; split; intros Hb.
  - destruct Hd as [_ Hd]. discriminate (Hd Hb).
  - simpl. eauto.
  - reflexivity.
  - destruct Hd as [Hd _]. rewrite (Hd eq_refl) in Hb. discriminate.
Qed.

Lemma invalid_json_bodies_witness :
  handleMessage oneSession
    (postTo "sessionId=S" (Some (JObject [("method", JNumber (Some 1%float))]))) =
    (http_Error "Invalid JSON" 400, None) /\
  (handleMessage oneSession
     (postTo "sessionId=S"
        (Some (JObject [("method", JString "tools/call"); ("params", JBool true)])))).1 =
    accepted.
Proof.
  split.
  - apply (invalid_json_bodies oneSession
             (postTo "sessionId=S" (Some (JObject [("method", JNumber (Some 1%float))]))));
      [reflexivity|discriminate|vm_compute; eauto|reflexivity].
  - apply (invalid_json_bodies oneSession
             (postTo "sessionId=S"
                (Some (JObject [("method", JString "tools/call"); ("params", JBool true)]))));
      [reflexivity|discriminate|vm_compute; eauto|reflexivity].
Defined.

(** ** The router *)

(** X9: [ServeHTTP] routes by the exact path alone.  A request is
    handed to [processRequest] only when its path is [/message] and its
    method POST; a session is opened exactly when the path is [/sse]
    and the writer can flush, whatever the method; every other path is
    answered 404. *)
Theorem routed_by_path (sessions : gmap string Chan) flusher id (r : Request) :
  (forall resp req msgChan,
     ServeHTTP sessions flusher id r = Messaged (resp, Some (req, msgChan)) ->
     Path (RequestURL r) = "/message" /\ HTTPMethod r = "POST") /\
  (forall s,
     ServeHTTP sessions flusher id r = Streamed (inr s) <->
     Path (RequestURL r) = "/sse" /\ flusher = true /\ handleSSE true id = inr s) /\
  (Path (RequestURL r) <> "/sse" -> Path (RequestURL r) <> "/message" ->
   ServeHTTP sessions flusher id r = NotFound (http_Error "404 page not found" 404)).
Proof.
  unfold ServeHTTP.
  destruct (String.eqb_spec (Path (RequestURL r)) "/sse") as [Hp|Hp].
  { split; [discriminate|]. split; [|contradiction].
    intros s. destruct flusher; simpl; split.
    - intros [= <-]. auto.
    - intros (_ & _ & [= <-]). reflexivity.
    - discriminate.
    - intros (_ & ? & _). discriminate. }
  destruct (String.eqb_spec (Path (RequestURL r)) "/message") as [Hq|Hq].
  - split; [|split; [|contradiction]].
    + intros resp req msgChan [= Hout]. split; [assumption|].
      unfold handleMessage in Hout.
      destruct (String.eqb_spec (HTTPMethod r) "POST"); [assumption|discriminate].
    + intros s. split; [discriminate|]. intros (? & _). contradiction.
  - split; [discriminate|]. split; [|reflexivity].
    intros s. split; [discriminate|]. intros (? & _). contradiction.
Qed.

Lemma routed_by_path_witness :
  ServeHTTP oneSession true "S"
    {| HTTPMethod := "POST"; RequestURL := {| Path := "/message/"; RawQuery := "" |};
       Body := None |} = NotFound (http_Error "404 page not found" 404).
Proof.
  apply (routed_by_path oneSession true "S"
           {| HTTPMethod := "POST"; RequestURL := {| Path := "/message/"; RawQuery := "" |};
              Body := None |}); discriminate.
Defined.

End RequestFacts.


(** * More properties of the event stream *)
Module StreamFacts.
Import GoURL GoJSON mcp Claims mcpServer Steps.

Lemma announcement_refl s : announcement s s = [].
Proof. unfold announcement. destruct (stage s); reflexivity. Qed.

(** What a run of a session keeps: the identifier, the order of the
    stages, and the messages, which move from the senders to the channel
    and from the channel to the stream without loss or reordering. *)
Lemma stream_invariant s s' :
  rtc step s s' ->
  sessionID s' = sessionID s /\
  (stage s' = Announcing -> stage s = Announcing) /\
  (stage s = Returned -> stage s' = Returned) /\
  exists accepted sent delivered,
    senders s ++ accepted ≡ₚ sent ++ senders s' /\
    msgChan s ++ sent = delivered ++ msgChan s' /\
    written s' = written s ++ announcement s s' ++ (messageEvent <$> delivered) /\
    (stage s' = Announcing -> delivered = []).
Proof.
  revert s'. apply rtc_ind_r.
  { split; [reflexivity|]. split; [trivial|]. split; [trivial|].
    exists [], [], []. rewrite announcement_refl, !app_nil_r. auto. }
  intros s1 s2 _ Hstep (Hid & Hst & Hret & accepted & sent & delivered & Hp & Hq & Hw & Hd).
  unfold announcement in *.
  destruct Hstep as
    [s1 Hs | s1 msg rest Hs Hc | s1 | s1 Hs Hc | s1 msg Hr | s1 before msg after Hs Hlen];
    simpl.
  - split; [exact Hid|]. split; [discriminate|].
    split; [intros Hs0; apply Hret in Hs0; congruence|].
    exists accepted, sent, delivered. split; [exact Hp|]. split; [exact Hq|].
    split; [|discriminate].
    rewrite (Hd Hs) in *. rewrite (Hst Hs), Hs in Hw. rewrite (Hst Hs).
    rewrite Hw, Hid. simpl. rewrite !app_nil_r. reflexivity.
  - split; [exact Hid|]. split; [discriminate|].
    split; [intros Hs0; apply Hret in Hs0; congruence|].
    exists accepted, sent, (delivered ++ [msg]). split; [exact Hp|].
    split; [rewrite Hq, Hc, <- app_assoc; reflexivity|].
    split; [|discriminate].
    rewrite Hw, Hs, fmap_app. simpl.
    destruct (stage s); rewrite <- ?app_assoc; simpl; rewrite <- ?app_assoc; reflexivity.
  - split; [exact Hid|]. split; [exact Hst|]. split; [exact Hret|].
    exists accepted, sent, delivered. auto.
  - split; [exact Hid|]. split; [discriminate|]. split; [reflexivity|].
    exists accepted, sent, delivered. split; [exact Hp|]. split; [exact Hq|].
    split; [|discriminate].
    rewrite Hw, Hs. destruct (stage s); reflexivity.
  - split; [exact Hid|]. split; [exact Hst|]. split; [exact Hret|].
    exists (accepted ++ [msg]), sent, delivered.
    split; [rewrite !app_assoc, Hp; reflexivity|]. auto.
  - split; [exact Hid|]. split; [exact Hst|]. split; [exact Hret|].
    exists accepted, (sent ++ [msg]), delivered.
    split; [|split; [rewrite app_assoc, Hq, <- app_assoc; reflexivity|auto]].
    rewrite Hp, Hs, <- app_assoc. apply Permutation_app_head. simpl.
    symmetry. apply Permutation_middle.
Qed.

Lemma streaming_run :
  rtc step {| sessionID := "S"; stage := Announcing; registered := true;
              cancelled := false; msgChan := []; written := []; senders := [] |}
    streaming.
Proof.
  destruct TransportFacts.streaming_reachable as (s0 & Hopen & Hsteps).
  simpl in Hopen. injection Hopen as <-. exact Hsteps.
Qed.

(** X10: the channel of a session never holds more than 10 responses. *)
Theorem channel_within_capacity id s :
  reachable id s -> (length (msgChan s) <= 10)%nat.
Proof.
  intros (s0 & Hopen & Hsteps). simpl in Hopen. injection Hopen as <-.
  revert s Hsteps. apply rtc_ind_r; [simpl; lia|].
  intros s s' _ Hstep IH.
  destruct Hstep as
    [s Hs | s msg rest Hs Hc | s | s Hs Hc | s msg Hr | s before msg after Hs Hlen];
    simpl; try exact IH.
  - rewrite Hc in IH. simpl in IH. lia.
  - rewrite length_app. simpl. unfold chanCap in Hlen. lia.
Qed.

Lemma channel_within_capacity_witness :
  reachable "S" abandoned /\ (length (msgChan abandoned) <= 10)%nat.
Proof.
  split; [exact TransportFacts.abandoned_reachable|].
  apply (channel_within_capacity "S" abandoned).
  exact TransportFacts.abandoned_reachable.
Defined.

(** X11: between two states of a session, the responses move in order
    and none is lost, duplicated or invented.  The responses that were
    in the channel followed by the ones sent in between are the ones
    delivered in between followed by the ones still in the channel; the
    stream grows by the endpoint event, if it was due, and then one
    message event per delivered response, in that order; and the
    responses sent in between were held by senders: the waiting senders
    and the ones accepted in between are, up to order, the ones that
    sent and the ones still waiting. *)
Theorem responses_delivered_in_order s s' :
  rtc step s s' ->
  exists accepted sent delivered,
    senders s ++ accepted ≡ₚ sent ++ senders s' /\
    msgChan s ++ sent = delivered ++ msgChan s' /\
    written s' = written s ++ announcement s s' ++ (messageEvent <$> delivered).
Proof.
  intros Hsteps.
  destruct (stream_invariant s s' Hsteps)
    as (_ & _ & _ & accepted & sent & delivered & Hp & Hq & Hw & _).
  exists accepted, sent, delivered. auto.
Qed.

Lemma responses_delivered_in_order_witness :
  exists accepted sent delivered,
    [] ++ accepted ≡ₚ sent ++ senders streaming /\
    [] ++ sent = delivered ++ msgChan streaming /\
    written streaming = [] ++ [endpointEvent "S"] ++ (messageEvent <$> delivered).
Proof.
  apply (responses_delivered_in_order
           {| sessionID := "S"; stage := Announcing; registered := true;
              cancelled := false; msgChan := []; written := []; senders := [] |}
           streaming).
  exact streaming_run.
Defined.

(** X12: [handleSSE] returns only after the context of the request is
    cancelled; once it has returned it stays returned, and a cancelled
    context stays cancelled.  The session keeps its identifier. *)
Theorem returns_only_when_cancelled id s :
  reachable id s ->
  sessionID s = id /\
  (stage s = Returned -> cancelled s = true) /\
  (forall s', rtc step s s' ->
     (cancelled s = true -> cancelled s' = true) /\
     (stage s = Returned -> stage s' = Returned)).
Proof.
  intros (s0 & Hopen & Hsteps). simpl in Hopen. injection Hopen as <-.
  assert (Hsticky : forall s s', rtc step s s' -> cancelled s = true -> cancelled s' = true).
  { intros s1 s2 Hrun Hc. revert s2 Hrun. apply rtc_ind_r; [exact Hc|].
    intros s2 s3 _ Hstep IH. destruct Hstep; simpl; auto. }
  split; [|split].
  - apply (stream_invariant _ _ Hsteps).
  - revert s Hsteps.
    apply (rtc_ind_r (fun s => stage s = Returned -> cancelled s = true));
      [discriminate|].
    intros s s' _ Hstep IH.
    destruct Hstep as
      [s Hs | s msg rest Hs Hc | s | s Hs Hc | s msg Hr | s before msg after Hs Hlen];
      simpl; try exact IH; try discriminate; auto.
  - intros s' Hrun. split; [apply Hsticky; exact Hrun|].
    apply (stream_invariant _ _ Hrun).
Qed.

Lemma returns_only_when_cancelled_witness :
  reachable "S" abandoned /\ stage abandoned = Returned /\ cancelled abandoned = true.
Proof.
  split; [exact TransportFacts.abandoned_reachable|]. split; [reflexivity|].
  destruct (returns_only_when_cancelled "S" abandoned TransportFacts.abandoned_reachable)
    as (_ & Hc & _).
  apply Hc. reflexivity.
Defined.

End StreamFacts.


(** * More properties of the URL parser *)
Module ParsedFacts.
Import GoStrings GoStrconv GoURL azuredevops ParserWords StringsFacts.

Lemma Atoi_in_range s n : Atoi s = Some n -> minInt <= n <= maxInt.
Proof.
  unfold Atoi.
  destruct (match s with
            | String c s' =>
                if Ascii.eqb c "-" then (true, s')
                else if Ascii.eqb c "+" then (false, s') else (false, s)
            | EmptyString => (false, s)
            end) as [neg body].
  destruct body as [|c body]; [discriminate|].
  destruct (digits (String c body) 0) as [m|]; [|discriminate].
  destruct ((minInt <=? (if neg then - m else m)) && ((if neg then - m else m) <=? maxInt))
    eqn:Hr; [|discriminate].
  intros Heq. simplify_eq. apply andb_true_iff in Hr. lia.
Qed.

Lemma afterLastSlash_no_slash s :
  match afterLastSlash s with
  | Some t => hasByte "/" t = false
  | None => hasByte "/" s = false
  end.
Proof.
  unfold hasByte. induction s as [|c s IH]; [reflexivity|].
  cbn [afterLastSlash]. destruct (afterLastSlash s) as [t|]; [exact IH|].
  destruct (Ascii.eqb c "/") eqn:Hc; [exact IH|].
  cbn [inCutset]. rewrite Ascii.eqb_sym, Hc, IH. reflexivity.
Qed.

Lemma lastSegment_no_slash s : hasByte "/" (lastSegment s) = false.
Proof.
  unfold lastSegment. pose proof (afterLastSlash_no_slash s) as Hs.
  destruct (afterLastSlash s); exact Hs.
Qed.

Lemma segmentBefore_no_slash path marker : hasByte "/" (segmentBefore path marker) = false.
Proof.
  unfold segmentBefore. destruct (Cut path marker) as [[before after]|]; [|reflexivity].
  apply lastSegment_no_slash.
Qed.

(** Without a [%] nothing is unescaped but the [+]. *)
Lemma QueryUnescape_without_percent s :
  hasByte "%" s = false -> QueryUnescape s = Ok (spaced s).
Proof.
  unfold hasByte. induction s as [|c s IH]; [reflexivity|].
  cbn [inCutset]. intros Hp. apply orb_false_iff in Hp. destruct Hp as [Hc Hs].
  cbn [QueryUnescape spaced]. rewrite Ascii.eqb_sym, Hc, (IH Hs). reflexivity.
Qed.

Lemma spaced_no_slash s : hasByte "/" (spaced s) = hasByte "/" s.
Proof.
  unfold hasByte. induction s as [|c s IH]; [reflexivity|].
  cbn [spaced inCutset]. rewrite IH.
  destruct (Ascii.eqb_spec c "+") as [->|]; reflexivity.
Qed.

(** X13: a resource [ParseURL] returns is a build or a release and its
    [ID] fits an [int].  The path segment its [Project] is made from
    holds no slash; when it holds no [%] either, [Project] is that
    segment with every [+] turned into a space, and holds no slash. *)
Theorem parsed_resource_shape url_Parse rawURL u r :
  url_Parse rawURL = Ok u ->
  ParseURL url_Parse rawURL = Ok r ->
  Type_ r <> ResourceUnknown /\
  minInt <= ID r <= maxInt /\
  hasByte "/" (segmentBefore (Path u) (markerOf (Type_ r))) = false /\
  (hasByte "%" (segmentBefore (Path u) (markerOf (Type_ r))) = false ->
   Project r = spaced (segmentBefore (Path u) (markerOf (Type_ r))) /\
   hasByte "/" (Project r) = false).
Proof.
  intros Hu. rewrite ParserFacts.ParseURL_blocks, Hu.
  assert (Hshape : forall ty marker key,
            marker <> EmptyString -> ty <> ResourceUnknown -> markerOf ty = marker ->
            block ty marker key u = Some r ->
            Type_ r <> ResourceUnknown /\
            minInt <= ID r <= maxInt /\
            hasByte "/" (segmentBefore (Path u) (markerOf (Type_ r))) = false /\
            (hasByte "%" (segmentBefore (Path u) (markerOf (Type_ r))) = false ->
             Project r = spaced (segmentBefore (Path u) (markerOf (Type_ r))) /\
             hasByte "/" (Project r) = false)).
  { intros ty marker key Hm Hty Hmarker Hb.
    destruct (ParserFacts.block_Some _ _ _ _ _ Hm Hb) as (n & [_ Hn] & ->). simpl.
    rewrite Hmarker.
    split; [exact Hty|]. split; [exact (Atoi_in_range _ _ Hn)|].
    split; [apply segmentBefore_no_slash|].
    intros Hp. unfold unescaped. rewrite (QueryUnescape_without_percent _ Hp).
    split; [reflexivity|]. rewrite spaced_no_slash. apply segmentBefore_no_slash. }
  destruct (block ResourceBuild "/_build" "buildId" u) as [rb|] eqn:Hb.
  - intros Heq. simplify_eq.
    apply (Hshape ResourceBuild "/_build" "buildId"); [discriminate..|reflexivity|exact Hb].
  - destruct (block ResourceRelease "/_release" "releaseId" u) as [rr|] eqn:Hr;
      [|discriminate].
    intros Heq. simplify_eq.
    apply (Hshape ResourceRelease "/_release" "releaseId");
      [discriminate..|reflexivity|exact Hr].
Qed.

Lemma parsed_resource_shape_witness :
  Project {| Type_ := ResourceRelease; Project := "Shop"; ID := 7 |} =
    spaced (segmentBefore "/DefaultCollection/Shop/_release" "/_release") /\
  minInt <= 7 <= maxInt.
Proof.
  destruct (parsed_resource_shape sampleParse
              "https://ado.example.com/DefaultCollection/Shop/_release?_a=release-summary&releaseId=7"
              {| Path := "/DefaultCollection/Shop/_release";
                 RawQuery := "_a=release-summary&releaseId=7" |}
              {| Type_ := ResourceRelease; Project := "Shop"; ID := 7 |}
              eq_refl eq_refl) as (_ & Hid & _ & Hp).
  split; [|exact Hid]. apply Hp. reflexivity.
Defined.

End ParsedFacts.


(** * Properties of the Azure DevOps client *)
Module ClientFacts.
Import GoStrings GoURL client.

Lemma append_assoc (a b c : string) : (a +:+ b) +:+ c = a +:+ (b +:+ c).
Proof.
  induction a as [|x a IH]; [reflexivity|].
  exact (f_equal (String x) IH).
Qed.

Lemma append_nil_r (a : string) : a +:+ EmptyString = a.
Proof.
  induction a as [|x a IH]; [reflexivity|].
  exact (f_equal (String x) IH).
Qed.

Lemma TrimRight_slash s : TrimRight (s +:+ "/") "/" = TrimRight s "/".
Proof.
  induction s as [|c s IH]; [reflexivity|].
  change (String c s +:+ "/") with (String c (s +:+ "/")).
  cbn [TrimRight]. rewrite IH. reflexivity.
Qed.

Lemma range_cons {A St : Type} (body : A -> St -> St) x l st :
  range body (x :: l) st = range body l (body x st).
Proof. reflexivity. Qed.

Lemma range_app {A St : Type} (body : A -> St -> St) l l' st :
  range body (l ++ l') st = range body l' (range body l st).
Proof. apply fold_left_app. Qed.

(** A loop in a loop is one loop over the inner lists, one after the other. *)
Lemma range_bind {A B St : Type} (inner : A -> St -> St) (body : B -> St -> St)
  (f : A -> list B) l st :
  (forall a st, inner a st = range body (f a) st) ->
  range inner l st = range body (l ≫= f) st.
Proof.
  intros Hinner. revert st. induction l as [|a l IH]; intros st; [reflexivity|].
  rewrite range_cons, bind_cons, range_app, IH, Hinner. reflexivity.
Qed.

Section Client.
Variable url_Parse : string -> result URL.
Variable respond : list HTTPRequest -> HTTPRequest -> result HTTPResponse.
Context `{Decodable Build} `{Decodable BuildListResponse} `{Decodable LogResponse}.
Context `{Decodable Release} `{Decodable ReleaseListResponse} `{Decodable ReleaseDetail}.

(** ** The requests *)

Lemma getRequest_default_project c path :
  getRequest url_Parse c "" path = getRequest url_Parse c (Project c) path.
Proof.
  unfold getRequest. change (String.eqb "" "") with true.
  destruct (String.eqb (Project c) "") eqn:Hp; cbn [negb]; rewrite ?Hp; reflexivity.
Qed.

(** X14: the requests of a client do not depend on slashes at the end
    of the base URL, nor on the organization, which is never read; and
    a call without a project is a call for the project of the client. *)
Theorem request_target baseURL organization organization' project token callProject path :
  getRequest url_Parse (NewClient (baseURL +:+ "/") organization project token)
    callProject path =
  getRequest url_Parse (NewClient baseURL organization' project token) callProject path /\
  getRequest url_Parse (NewClient baseURL organization project token) "" path =
  getRequest url_Parse (NewClient baseURL organization project token) project path.
Proof.
  split.
  - unfold getRequest, NewClient, authorization. cbn [BaseURL Project Token].
    rewrite TrimRight_slash. reflexivity.
  - apply getRequest_default_project.
Qed.

Lemma getRequest_authenticated c project path req :
  getRequest url_Parse c project path = Ok req -> authenticatedGet c req.
Proof.
  unfold getRequest, http_NewRequest, authenticatedGet.
  destruct (url_Parse _); [|discriminate].
  intros Heq. simplify_eq. split; [reflexivity|]. cbn. set_solver.
Qed.

Lemma taskRequest_authenticated c task req :
  taskRequest url_Parse c task = Some req ->
  authenticatedGet c req /\ ReqURL req = LogUrl task /\
  Header req = [("Authorization", authorization c)].
Proof.
  unfold taskRequest, http_NewRequest, authenticatedGet.
  destruct (String.eqb (LogUrl task) ""); [discriminate|].
  destruct (url_Parse _); [|discriminate].
  intros Heq. simplify_eq. cbn. split; [split; [reflexivity|set_solver]|]. auto.
Qed.

(** ** [doRequest] *)

Lemma doRequest_handed {T : Type} `{Decodable T} req (v : option T) handed :
  (doRequest respond req v handed).2 = handed ++ [req].
Proof.
  unfold doRequest, Do. destruct (respond handed req) as [resp|err]; [|reflexivity].
  destruct ((Status resp <? 200) || (300 <=? Status resp)); [reflexivity|].
  destruct v as [t|]; [|reflexivity].
  destruct (Decode (Content resp) t); reflexivity.
Qed.

(** X15: [doRequest] hands the request to the transport once.  It
    returns no error exactly when the transport answers with a status
    from 200 to 299 and the body decodes, and the struct then holds what
    was decoded; for every other status the error names the status and
    carries the body, which is not decoded: the struct is left as it
    was. *)
Theorem doRequest_outcome {T : Type} `{Decodable T} req (t : T) handed :
  exists err v,
    doRequest respond req (Some t) handed = (err, v, handed ++ [req]) /\
    (err = None <->
     exists resp t', respond handed req = Ok resp /\ 200 <= Status resp < 300 /\
                     Decode (Content resp) t = Ok t' /\ v = Some t') /\
    (forall resp,
       respond handed req = Ok resp -> ~ 200 <= Status resp < 300 ->
       err = Some ("API request failed with status " +:+ Itoa (Status resp) +:+ ": "
                   +:+ Content resp) /\
       v = Some t).
Proof.
  unfold doRequest, Do. destruct (respond handed req) as [resp|msg].
  - destruct ((Status resp <? 200) || (300 <=? Status resp)) eqn:Hs.
    + eexists _, _. split; [reflexivity|]. split.
      * split; [discriminate|]. intros (resp' & t' & Heq & Hr & _). simplify_eq.
        apply orb_true_iff in Hs. lia.
      * intros resp' Heq _. simplify_eq. split; reflexivity.
    + apply orb_false_iff in Hs.
      destruct (Decode (Content resp) t) as [t'|msg] eqn:Hd.
      * eexists _, _. split; [reflexivity|]. split.
        -- split; [intros _|intros _; reflexivity]. exists resp, t'.
           repeat split; try lia; try reflexivity; assumption.
        -- intros resp' Heq Hn. simplify_eq. lia.
      * eexists _, _. split; [reflexivity|]. split.
        -- split; [discriminate|]. intros (resp' & t' & Heq & _ & Hd' & _).
           simplify_eq. congruence.
        -- intros resp' Heq Hn. simplify_eq. lia.
  - eexists _, _. split; [reflexivity|]. split.
    + split; [discriminate|]. intros (resp' & t' & Heq & _). discriminate.
    + intros resp' Heq. discriminate.
Qed.

(** ** The logs of a build *)

Lemma buildLog_range c project buildId items fullLogs handed :
  exists sections,
    range (buildLog url_Parse respond c project buildId) items (fullLogs, handed) =
      (fullLogs +:+ joined sections,
       handed ++ omap (logRequest url_Parse c project buildId) items) /\
    Forall2 (fun logItem section =>
               section = EmptyString \/ exists content, section = logSection logItem content)
      items sections.
Proof.
  revert fullLogs handed. induction items as [|logItem items IH]; intros fullLogs handed.
  { exists []. cbn. rewrite append_nil_r, app_nil_r. auto. }
  rewrite range_cons. unfold buildLog at 2, logRequest. cbn [omap list_omap].
  destruct (getRequest url_Parse c project _) as [logReq|msg].
  - unfold Do. destruct (respond handed logReq) as [resp|msg].
    + destruct (IH (fullLogs +:+ ("--- Log ID " +:+ Itoa (LogId logItem) +:+ " ---" +:+ newline)
                      +:+ Content resp +:+ newline) (handed ++ [logReq]))
        as (sections & -> & Hs).
      exists (logSection logItem (Content resp) :: sections). split.
      * unfold logSection, joined. cbn [foldr]. rewrite <- !app_assoc.
        f_equal. rewrite !append_assoc. reflexivity.
      * constructor; [right; eauto|exact Hs].
    + destruct (IH fullLogs (handed ++ [logReq])) as (sections & -> & Hs).
      exists (EmptyString :: sections). split.
      * rewrite <- !app_assoc. reflexivity.
      * constructor; [left; reflexivity|exact Hs].
  - destruct (IH fullLogs handed) as (sections & -> & Hs).
    exists (EmptyString :: sections). split; [reflexivity|].
    constructor; [left; reflexivity|exact Hs].
Qed.

Lemma buildLog_step c project buildId logItem fullLogs handed :
  buildLog url_Parse respond c project buildId logItem (fullLogs, handed) =
    match logRequest url_Parse c project buildId logItem with
    | None => (fullLogs, handed)
    | Some logReq =>
        match respond handed logReq with
        | Ok resp =>
            (fullLogs +:+ ("--- Log ID " +:+ Itoa (LogId logItem) +:+ " ---" +:+ newline)
               +:+ Content resp +:+ newline,
             handed ++ [logReq])
        | Err _ => (fullLogs, handed ++ [logReq])
        end
    end.
Proof.
  unfold buildLog, logRequest, Do.
  destruct (getRequest url_Parse c project _) as [logReq|msg]; [|reflexivity].
  destruct (respond handed logReq); reflexivity.
Qed.

Lemma buildLog_pieces c project buildId items fullLogs handed :
  range (buildLog url_Parse respond c project buildId) items (fullLogs, handed) =
    (fullLogs +:+
       joined (imap (fun i logItem =>
                       logPiece url_Parse respond c project buildId handed
                         (take i items) logItem) items),
     handed ++ omap (logRequest url_Parse c project buildId) items).
Proof.
  revert fullLogs handed. induction items as [|logItem items IH]; intros fullLogs handed.
  { cbn. rewrite append_nil_r, app_nil_r. reflexivity. }
  rewrite range_cons, imap_cons, buildLog_step.
  assert (Hlater : forall first,
            omap (logRequest url_Parse c project buildId) [logItem] = first ->
            imap ((fun i item =>
                     logPiece url_Parse respond c project buildId handed
                       (take i (logItem :: items)) item) ∘ S) items =
            imap (fun i item =>
                    logPiece url_Parse respond c project buildId (handed ++ first)
                      (take i items) item) items).
  { intros first Hfirst. apply imap_ext. intros i item _.
    unfold compose, logPiece. cbn [take].
    change (logItem :: take i items) with ([logItem] ++ take i items).
    rewrite omap_app, Hfirst, app_assoc. reflexivity. }
  cbn beta. unfold logPiece at 1. cbn [take omap list_omap] in *. rewrite app_nil_r.
  destruct (logRequest url_Parse c project buildId logItem) as [logReq|];
    cbn [joined foldr].
  - rewrite (Hlater [logReq] eq_refl).
    destruct (respond handed logReq) as [resp|msg]; rewrite IH.
    + f_equal; [|rewrite <- app_assoc; reflexivity].
      unfold logSection, joined. rewrite !append_assoc. reflexivity.
    + f_equal. rewrite <- app_assoc. reflexivity.
  - rewrite (Hlater [] eq_refl), app_nil_r. rewrite IH. reflexivity.
Qed.

(** X16: once the listing of the logs is fetched, [GetBuildLogs]
    returns no error.  It asks for every log of the listing for which
    [getRequest] makes a request, once and in the order of the listing,
    and its text is made of one piece per log, in that order: nothing
    when no request is made for the log or the transport fails, and
    otherwise the heading of the log, the body of the answer to the
    request of that log, whatever its status, and a line end. *)
Theorem build_logs_outcome c project buildId handed req logResp handed1 :
  getRequest url_Parse c project
    ("build/builds/" +:+ Itoa buildId +:+ "/logs?api-version=6.0") = Ok req ->
  doRequest respond req (Some zeroLogResponse) handed = (None, Some logResp, handed1) ->
  GetBuildLogs url_Parse respond c project buildId handed =
    (Ok (joined (imap (fun i logItem =>
                         logPiece url_Parse respond c project buildId handed1
                           (take i (LogValue logResp)) logItem)
                   (LogValue logResp))),
     handed1 ++ omap (logRequest url_Parse c project buildId) (LogValue logResp)).
Proof.
  intros Hreq Hdo. unfold GetBuildLogs. rewrite Hreq, Hdo.
  change (default zeroLogResponse (Some logResp)) with logResp.
  rewrite buildLog_pieces. reflexivity.
Qed.

(** ** The logs of a release *)

Lemma taskLog_range c tasks fullLogs handed :
  exists sections,
    range (taskLog url_Parse respond c) tasks (fullLogs, handed) =
      (fullLogs +:+ joined sections, handed ++ omap (taskRequest url_Parse c) tasks) /\
    Forall2 (fun task section =>
               section = EmptyString \/ exists content, section = taskSection task content)
      tasks sections.
Proof.
  revert fullLogs handed. induction tasks as [|task tasks IH]; intros fullLogs handed.
  { exists []. cbn. rewrite append_nil_r, app_nil_r. auto. }
  rewrite range_cons. unfold taskLog at 2, taskRequest. cbn [omap list_omap].
  destruct (String.eqb (LogUrl task) "").
  { destruct (IH fullLogs handed) as (sections & -> & Hs).
    exists (EmptyString :: sections). split; [reflexivity|].
    constructor; [left; reflexivity|exact Hs]. }
  destruct (http_NewRequest url_Parse "GET" (LogUrl task)) as [logReq|msg].
  - unfold Do.
    destruct (respond handed (Header_Add logReq "Authorization" (authorization c)))
      as [resp|msg].
    + destruct (IH (fullLogs +:+ ("--- Task: " +:+ TaskName task +:+ " ---" +:+ newline)
                      +:+ Content resp +:+ newline)
                  (handed ++ [Header_Add logReq "Authorization" (authorization c)]))
        as (sections & -> & Hs).
      exists (taskSection task (Content resp) :: sections). split.
      * unfold taskSection, joined. cbn [foldr]. rewrite <- !app_assoc.
        f_equal. rewrite !append_assoc. reflexivity.
      * constructor; [right; eauto|exact Hs].
    + destruct (IH fullLogs
                  (handed ++ [Header_Add logReq "Authorization" (authorization c)]))
        as (sections & -> & Hs).
      exists (EmptyString :: sections). split.
      * rewrite <- !app_assoc. reflexivity.
      * constructor; [left; reflexivity|exact Hs].
  - destruct (IH fullLogs handed) as (sections & -> & Hs).
    exists (EmptyString :: sections). split; [reflexivity|].
    constructor; [left; reflexivity|exact Hs].
Qed.

Lemma environmentLogs_tasks c env fullLogs handed :
  environmentLogs url_Parse respond c env (fullLogs, handed) =
    range (taskLog url_Parse respond c) (tasksOf env)
      (fullLogs +:+ environmentHeading env, handed).
Proof.
  unfold environmentLogs, tasksOf, environmentHeading.
  apply range_bind. intros step st.
  apply range_bind. intros phase st'.
  apply range_bind. reflexivity.
Qed.

Lemma environmentLogs_range c envs fullLogs handed :
  exists blocks,
    range (environmentLogs url_Parse respond c) envs (fullLogs, handed) =
      (fullLogs +:+ joined blocks,
       handed ++ omap (taskRequest url_Parse c) (envs ≫= tasksOf)) /\
    Forall2 (fun env block =>
               exists sections,
                 block = environmentHeading env +:+ joined sections /\
                 Forall2 (fun task section =>
                            section = EmptyString \/
                            exists content, section = taskSection task content)
                   (tasksOf env) sections)
      envs blocks.
Proof.
  revert fullLogs handed. induction envs as [|env envs IH]; intros fullLogs handed.
  { exists []. cbn. rewrite append_nil_r, app_nil_r. auto. }
  rewrite range_cons, environmentLogs_tasks.
  destruct (taskLog_range c (tasksOf env) (fullLogs +:+ environmentHeading env) handed)
    as (sections & -> & Hs).
  destruct (IH ((fullLogs +:+ environmentHeading env) +:+ joined sections)
              (handed ++ omap (taskRequest url_Parse c) (tasksOf env)))
    as (blocks & -> & Hb).
  exists ((environmentHeading env +:+ joined sections) :: blocks). split.
  - rewrite bind_cons, omap_app, <- app_assoc. f_equal.
    unfold joined at 3. cbn [foldr]. rewrite !append_assoc. reflexivity.
  - constructor; [eauto|exact Hb].
Qed.

(** X17: once the detail of the release is fetched, [GetReleaseLogs]
    returns no error.  Its text has one block per environment, in
    order, each starting with the heading of the environment, also when
    no task of it has a log, followed by one piece per task.  The
    requests it makes after the first are those of the tasks that have
    a [LogUrl] that parses, once each in the order of the loops: each
    goes to the [LogUrl] itself and carries the token of the client. *)
Theorem release_logs_outcome c project releaseId handed req detail handed1 :
  getRequest url_Parse c project
    ("release/releases/" +:+ Itoa releaseId +:+ "?api-version=6.0") = Ok req ->
  doRequest respond req (Some zeroReleaseDetail) handed = (None, Some detail, handed1) ->
  (exists blocks,
     GetReleaseLogs url_Parse respond c project releaseId handed =
       (Ok (joined blocks),
        handed1 ++ omap (taskRequest url_Parse c) (Environments detail ≫= tasksOf)) /\
     Forall2 (fun env block =>
                exists sections,
                  block = environmentHeading env +:+ joined sections /\
                  Forall2 (fun task section =>
                             section = EmptyString \/
                             exists content, section = taskSection task content)
                    (tasksOf env) sections)
       (Environments detail) blocks) /\
  (forall task logReq,
     taskRequest url_Parse c task = Some logReq ->
     ReqMethod logReq = "GET" /\ ReqURL logReq = LogUrl task /\
     Header logReq = [("Authorization", authorization c)]).
Proof.
  intros Hreq Hdo. split.
  - unfold GetReleaseLogs. rewrite Hreq, Hdo.
    change (default zeroReleaseDetail (Some detail)) with detail.
    destruct (environmentLogs_range c (Environments detail) EmptyString handed1)
      as (blocks & -> & Hb).
    exists blocks. split; [reflexivity|exact Hb].
  - intros task logReq Ht.
    destruct (taskRequest_authenticated _ _ _ Ht) as ([Hm _] & Hu & Hh). auto.
Qed.

(** ** What the client sends *)

Lemma sendsOnly_none c handed : sendsOnly c handed handed.
Proof. exists []. rewrite app_nil_r. auto. Qed.

Lemma sendsOnly_doRequest {T : Type} `{Decodable T} c project path req (v : option T) handed :
  getRequest url_Parse c project path = Ok req ->
  sendsOnly c handed (doRequest respond req v handed).2.
Proof.
  intros Hreq. rewrite doRequest_handed. exists [req]. split; [reflexivity|].
  constructor; [|constructor]. exact (getRequest_authenticated _ _ _ _ Hreq).
Qed.

Lemma sendsOnly_more c handed handed1 more :
  sendsOnly c handed handed1 -> Forall (authenticatedGet c) more ->
  sendsOnly c handed (handed1 ++ more).
Proof.
  intros (first & -> & Hf) Hm. exists (first ++ more).
  rewrite app_assoc. split; [reflexivity|]. apply Forall_app. auto.
Qed.

Lemma logRequests_authenticated c project buildId items :
  Forall (authenticatedGet c) (omap (logRequest url_Parse c project buildId) items).
Proof.
  apply Forall_forall. intros req Hin. apply list_elem_of_omap in Hin.
  destruct Hin as (logItem & _ & Hreq). unfold logRequest in Hreq.
  destruct (getRequest url_Parse c project _) as [logReq|] eqn:Hg; [|discriminate].
  simplify_eq. exact (getRequest_authenticated _ _ _ _ Hg).
Qed.

Lemma taskRequests_authenticated c tasks :
  Forall (authenticatedGet c) (omap (taskRequest url_Parse c) tasks).
Proof.
  apply Forall_forall. intros req Hin. apply list_elem_of_omap in Hin.
  destruct Hin as (task & _ & Hreq).
  apply (taskRequest_authenticated _ _ _ Hreq).
Qed.

(** X18: whatever the servers answer, the six operations of the client
    hand to the transport nothing but GET requests that carry the
    [Authorization] of the token, and never take back a request handed
    before. *)
Theorem client_sends_authenticated_gets c project n handed :
  sendsOnly c handed (GetBuilds url_Parse respond c project n handed).2 /\
  sendsOnly c handed (GetBuild url_Parse respond c project n handed).2 /\
  sendsOnly c handed (GetBuildLogs url_Parse respond c project n handed).2 /\
  sendsOnly c handed (GetReleases url_Parse respond c project n handed).2 /\
  sendsOnly c handed (GetRelease url_Parse respond c project n handed).2 /\
  sendsOnly c handed (GetReleaseLogs url_Parse respond c project n handed).2.
Proof.
  repeat split.
  - unfold GetBuilds. destruct (getRequest url_Parse c project _) as [req|msg] eqn:Hreq;
      [|apply sendsOnly_none].
    pose proof (sendsOnly_doRequest c _ _ req (Some zeroBuildList) handed Hreq) as Hs.
    destruct (doRequest respond req (Some zeroBuildList) handed) as [[[err|] v] handed1];
      exact Hs.
  - unfold GetBuild. destruct (getRequest url_Parse c project _) as [req|msg] eqn:Hreq;
      [|apply sendsOnly_none].
    pose proof (sendsOnly_doRequest c _ _ req (Some zeroBuild) handed Hreq) as Hs.
    destruct (doRequest respond req (Some zeroBuild) handed) as [[[err|] v] handed1];
      exact Hs.
  - unfold GetBuildLogs. destruct (getRequest url_Parse c project _) as [req|msg] eqn:Hreq;
      [|apply sendsOnly_none].
    pose proof (sendsOnly_doRequest c _ _ req (Some zeroLogResponse) handed Hreq) as Hs.
    destruct (doRequest respond req (Some zeroLogResponse) handed)
      as [[[err|] v] handed1]; [exact Hs|].
    destruct (buildLog_range c project n (LogValue (default zeroLogResponse v))
                EmptyString handed1) as (sections & -> & _).
    apply sendsOnly_more; [exact Hs|apply logRequests_authenticated].
  - unfold GetReleases. destruct (getRequest url_Parse c project _) as [req|msg] eqn:Hreq;
      [|apply sendsOnly_none].
    pose proof (sendsOnly_doRequest c _ _ req (Some zeroReleaseList) handed Hreq) as Hs.
    destruct (doRequest respond req (Some zeroReleaseList) handed)
      as [[[err|] v] handed1]; exact Hs.
  - unfold GetRelease. destruct (getRequest url_Parse c project _) as [req|msg] eqn:Hreq;
      [|apply sendsOnly_none].
    pose proof (sendsOnly_doRequest c _ _ req (Some zeroRelease) handed Hreq) as Hs.
    destruct (doRequest respond req (Some zeroRelease) handed) as [[[err|] v] handed1];
      exact Hs.
  - unfold GetReleaseLogs.
    destruct (getRequest url_Parse c project _) as [req|msg] eqn:Hreq;
      [|apply sendsOnly_none].
    pose proof (sendsOnly_doRequest c _ _ req (Some zeroReleaseDetail) handed Hreq) as Hs.
    destruct (doRequest respond req (Some zeroReleaseDetail) handed)
      as [[[err|] v] handed1]; [exact Hs|].
    destruct (environmentLogs_range c (Environments (default zeroReleaseDetail v))
                EmptyString handed1) as (blocks & -> & _).
    apply sendsOnly_more; [exact Hs|apply taskRequests_authenticated].
Qed.

End Client.

Lemma build_logs_outcome_witness :
  GetBuildLogs sampleParse sampleRespond shop "" 7 [] =
    (Ok (joined [logSection {| LogId := 3; LogItemUrl := "" |} "gone";
                 logSection {| LogId := 4; LogItemUrl := "" |} "compiled"]),
     [{| ReqMethod := "GET";
         ReqURL := "https://ado/Shop/_apis/build/builds/7/logs?api-version=6.0";
         Header := [("Authorization", "Basic OnRva2Vu");
                    ("Content-Type", "application/json")] |};
      {| ReqMethod := "GET";
         ReqURL := "https://ado/Shop/_apis/build/builds/7/logs/3?api-version=6.0";
         Header := [("Authorization", "Basic OnRva2Vu");
                    ("Content-Type", "application/json")] |};
      {| ReqMethod := "GET";
         ReqURL := "https://ado/Shop/_apis/build/builds/7/logs/4?api-version=6.0";
         Header := [("Authorization", "Basic OnRva2Vu");
                    ("Content-Type", "application/json")] |}]).
Proof.
  rewrite (build_logs_outcome sampleParse sampleRespond shop "" 7 []
             {| ReqMethod := "GET";
                ReqURL := "https://ado/Shop/_apis/build/builds/7/logs?api-version=6.0";
                Header := [("Authorization", "Basic OnRva2Vu");
                           ("Content-Type", "application/json")] |}
             {| LogValue := [{| LogId := 3; LogItemUrl := "" |};
                             {| LogId := 4; LogItemUrl := "" |}] |}
             [{| ReqMethod := "GET";
                 ReqURL := "https://ado/Shop/_apis/build/builds/7/logs?api-version=6.0";
                 Header := [("Authorization", "Basic OnRva2Vu");
                            ("Content-Type", "application/json")] |}]);
    reflexivity.
Defined.

Lemma release_logs_outcome_witness :
  exists blocks,
    (GetReleaseLogs sampleParse sampleRespond shop "" 9 []).1 = Ok (joined blocks) /\
    length blocks = 2%nat.
Proof.
  edestruct (release_logs_outcome sampleParse sampleRespond shop "" 9 []
               {| ReqMethod := "GET";
                  ReqURL := "https://ado/Shop/_apis/release/releases/9?api-version=6.0";
                  Header := [("Authorization", "Basic OnRva2Vu");
                             ("Content-Type", "application/json")] |})
    as [(blocks & Heq & Hb) _]; [reflexivity|reflexivity|].
  exists blocks. rewrite Heq. split; [reflexivity|].
  apply Forall2_length in Hb. rewrite <- Hb. reflexivity.
Defined.

End ClientFacts.


(** * Properties of the tools of [main.go] *)
Module MainFacts.
Import GoJSON mcp Steps main.

Section Tools.
Variable int : float -> Z.
Variable url_Parse : string -> result GoURL.URL.
Variable respond : list client.HTTPRequest -> client.HTTPRequest -> result client.HTTPResponse.
Context `{client.Decodable client.Build} `{client.Decodable client.BuildListResponse}.
Context `{client.Decodable client.LogResponse} `{client.Decodable client.Release}.
Context `{client.Decodable client.ReleaseListResponse}.
Context `{client.Decodable client.ReleaseDetail}.
Variable MarshalIndent_builds : list client.Build -> string.
Variable MarshalIndent_build : client.Build -> string.
Variable MarshalIndent_releases : list client.Release -> string.
Variable MarshalIndent_release : client.Release -> string.
Variable handed : list client.HTTPRequest.

Local Abbreviation tools c :=
  (registered int url_Parse respond MarshalIndent_builds MarshalIndent_build
     MarshalIndent_releases MarshalIndent_release handed c).

Lemma handlers_registered c :
  Handlers (tools c) !! "list_builds" =
    Some (list_builds int url_Parse respond MarshalIndent_builds handed c) /\
  Handlers (tools c) !! "get_build" =
    Some (get_build int url_Parse respond MarshalIndent_build handed c) /\
  Handlers (tools c) !! "get_build_logs" =
    Some (get_build_logs int url_Parse respond handed c) /\
  Handlers (tools c) !! "list_releases" =
    Some (list_releases int url_Parse respond MarshalIndent_releases handed c) /\
  Handlers (tools c) !! "get_release" =
    Some (get_release int url_Parse respond MarshalIndent_release handed c) /\
  Handlers (tools c) !! "get_release_logs" =
    Some (get_release_logs int url_Parse respond handed c).
Proof.
  unfold registered, RegisterTool. cbn [Handlers ToolName list_builds_tool get_build_tool
    get_build_logs_tool list_releases_tool get_release_tool get_release_logs_tool].
  repeat split;
    repeat (rewrite lookup_insert_ne by discriminate); apply lookup_insert_eq.
Qed.

(** X19: a [tools/call] of [get_build], [get_build_logs], [get_release]
    or [get_release_logs] whose arguments hold no number under the
    identifier key - no such key, no arguments at all, or a string, a
    boolean, [null], an array or an object there - is answered in band:
    the result is the error text of the tool with [isError] set.  The
    answer does not depend on the servers: the client is not called. *)
Theorem id_tools_need_a_number c req tool key message args :
  (tool, key, message) ∈ idTools ->
  Method req = "tools/call" ->
  UnmarshalCallToolRequest (Params req) = Some {| Name := tool; Arguments := args |} ->
  float64_of (argument args key) = None ->
  processRequest (tools c) req =
    {| calls := [(tool, args)];
       sent := Some {| JSONRPC := "2.0";
                       Result := Some (ToolFailed
                                         {| ResultContent :=
                                              [{| ContentType := "text"; Text := message |}];
                                            IsError := true |});
                       Error := None;
                       ID := ReqID req |} |}.
Proof.
  intros Hin Hm Hu Hf. destruct (handlers_registered c) as (_ & Hb & Hbl & _ & Hr & Hrl).
  tools_call Hm. rewrite Hu. cbn [Name Arguments].
  unfold idTools in Hin.
  repeat (apply elem_of_cons in Hin; destruct Hin as [Hin|Hin]);
    [..|apply elem_of_nil in Hin; destruct Hin]; simplify_eq.
  - rewrite Hb. unfold get_build. rewrite Hf. reflexivity.
  - rewrite Hbl. unfold get_build_logs. rewrite Hf. reflexivity.
  - rewrite Hr. unfold get_release. rewrite Hf. reflexivity.
  - rewrite Hrl. unfold get_release_logs. rewrite Hf. reflexivity.
Qed.

(** X20: the tools that take an identifier read two things of their
    arguments: the number under the identifier key, of which only the
    conversion to [int] counts, so that a number that is no integer is
    taken and converted, and the string under [project].  Arguments
    that agree on these get the same answer. *)
Theorem id_number_converted c tool key message handler args args' f g :
  (tool, key, message) ∈ idTools ->
  Handlers (tools c) !! tool = Some handler ->
  float64_of (argument args key) = Some f ->
  float64_of (argument args' key) = Some g ->
  int f = int g ->
  string_of (argument args "project") = string_of (argument args' "project") ->
  handler args = handler args'.
Proof.
  intros Hin Hh Hf Hg Hint Hp.
  destruct (handlers_registered c) as (_ & Hb & Hbl & _ & Hr & Hrl).
  unfold idTools in Hin.
  repeat (apply elem_of_cons in Hin; destruct Hin as [Hin|Hin]);
    [..|apply elem_of_nil in Hin; destruct Hin]; simplify_eq.
  - unfold get_build. rewrite Hf, Hg, Hint, Hp. reflexivity.
  - unfold get_build_logs. rewrite Hf, Hg, Hint, Hp. reflexivity.
  - unfold get_release. rewrite Hf, Hg, Hint, Hp. reflexivity.
  - unfold get_release_logs. rewrite Hf, Hg, Hint, Hp. reflexivity.
Qed.

(** X21: [list_builds] and [list_releases] called without a number
    under [top] and without a string under [project] answer as for the
    top 10 of the project of the client. *)
Theorem list_tools_defaults c tool handler args t :
  tool ∈ listTools ->
  Handlers (tools c) !! tool = Some handler ->
  float64_of (argument args "top") = None ->
  string_of (argument args "project") = EmptyString ->
  int t = 10 ->
  handler args =
    handler (Some (<["top" := VFloat64 t]> {["project" := VString (client.Project c)]})).
Proof.
  intros Hin Hh Hf Hp Hint.
  destruct (handlers_registered c) as (Hb & _ & _ & Hr & _).
  assert (Htop : argument (Some (<["top" := VFloat64 t]>
                                   {["project" := VString (client.Project c)]})) "top"
                 = VFloat64 t).
  { unfold argument. cbn [mbind option_bind]. rewrite lookup_insert_eq. reflexivity. }
  assert (Hproject : argument (Some (<["top" := VFloat64 t]>
                                       {["project" := VString (client.Project c)]}))
                       "project" = VString (client.Project c)).
  { unfold argument. cbn [mbind option_bind].
    rewrite lookup_insert_ne by discriminate. rewrite lookup_singleton_eq. reflexivity. }
  unfold listTools in Hin.
  repeat (apply elem_of_cons in Hin; destruct Hin as [Hin|Hin]);
    [..|apply elem_of_nil in Hin; destruct Hin]; simplify_eq.
  - unfold list_builds. rewrite Hf, Hp, Htop, Hproject. cbn [float64_of string_of].
    rewrite Hint. unfold client.GetBuilds.
    rewrite ClientFacts.getRequest_default_project. reflexivity.
  - unfold list_releases. rewrite Hf, Hp, Htop, Hproject. cbn [float64_of string_of].
    rewrite Hint. unfold client.GetReleases.
    rewrite ClientFacts.getRequest_default_project. reflexivity.
Qed.

(** X22: [main] reaches [ListenAndServe] exactly when [flag.Parse]
    returns and [ADO_URL] and [ADO_TOKEN] are set; it then listens on
    the port of the flag, else of [PORT], else 8080.  The server it
    serves is built by [RegisterTool] alone, and offers the six tools
    and no other. *)
Theorem main_serves_six_tools (Getenv : string -> string) (flags : Flags) :
  (is_Some (main.main int url_Parse respond MarshalIndent_builds MarshalIndent_build
              MarshalIndent_releases MarshalIndent_release handed Getenv flags) <->
   (exists flagPort, flags = FlagsParsed flagPort) /\
   Getenv "ADO_URL" <> EmptyString /\ Getenv "ADO_TOKEN" <> EmptyString) /\
  (forall addr s,
     main.main int url_Parse respond MarshalIndent_builds MarshalIndent_build
       MarshalIndent_releases MarshalIndent_release handed Getenv flags = Some (addr, s) ->
     (exists flagPort,
        flags = FlagsParsed flagPort /\
        addr = ":" +:+ default (if String.eqb (Getenv "PORT") "" then "8080"
                                else Getenv "PORT") flagPort) /\
     mcpServer.built s /\
     dom (Tools s) =
       ({["list_builds"; "get_build"; "get_build_logs";
          "list_releases"; "get_release"; "get_release_logs"]} : gset string)).
Proof.
  unfold main.main. destruct flags as [|flagPort].
  { split; [|discriminate]. split.
    - intros Hs. destruct (is_Some_None Hs).
    - intros ([flagPort Hf] & _). discriminate. }
  destruct (String.eqb_spec (Getenv "ADO_URL") "") as [Hu|Hu];
    destruct (String.eqb_spec (Getenv "ADO_TOKEN") "") as [Ht|Ht]; cbn [orb];
    try (split; [split; [intros Hs; destruct (is_Some_None Hs)|tauto]|discriminate]).
  split; [split; [eauto|eauto]|].
  intros addr s Heq. simplify_eq. split; [eauto|]. split.
  - unfold registered. repeat apply mcpServer.built_RegisterTool.
    apply mcpServer.built_NewServer.
  - unfold registered, RegisterTool, NewServer. cbn [Tools ToolName list_builds_tool
      get_build_tool get_build_logs_tool list_releases_tool get_release_tool
      get_release_logs_tool].
    rewrite !dom_insert_L, dom_empty_L. set_solver.
Qed.

End Tools.

#[local] Existing Instances client.sampleBuild client.sampleBuildList client.sampleLogs
  client.sampleRelease client.sampleReleaseList client.sampleDetail.

Lemma id_tools_need_a_number_witness :
  processRequest
    (registered sampleInt client.sampleParse client.sampleRespond
       sampleMarshal sampleMarshal sampleMarshal sampleMarshal [] client.shop)
    (Claims.callWith
       (Some (JObject [("name", JString "get_build");
                       ("arguments", JObject [("buildId", JString "42")])]))) =
    {| calls := [("get_build", Some {["buildId" := VString "42"]})];
       sent := Some {| JSONRPC := "2.0";
                       Result := Some (ToolFailed
                                         {| ResultContent :=
                                              [{| ContentType := "text";
                                                  Text := "buildId is required and must be an integer" |}];
                                            IsError := true |});
                       Error := None;
                       ID := VString "r1" |} |}.
Proof.
  apply (id_tools_need_a_number sampleInt client.sampleParse client.sampleRespond
           sampleMarshal sampleMarshal sampleMarshal sampleMarshal [] client.shop
           (Claims.callWith
              (Some (JObject [("name", JString "get_build");
                              ("arguments", JObject [("buildId", JString "42")])])))
           "get_build" "buildId" "buildId is required and must be an integer"
           (Some {["buildId" := VString "42"]})).
  - unfold idTools. apply elem_of_cons. left. reflexivity.
  - reflexivity.
  - reflexivity.
  - reflexivity.
Defined.

Lemma id_number_converted_witness :
  get_build_logs sampleInt client.sampleParse client.sampleRespond [] client.shop
    (Some {["buildId" := VFloat64 7.5%float]}) =
  get_build_logs sampleInt client.sampleParse client.sampleRespond [] client.shop
    (Some {["buildId" := VFloat64 7%float]}).
Proof.
  apply (id_number_converted sampleInt client.sampleParse client.sampleRespond
           sampleMarshal sampleMarshal sampleMarshal sampleMarshal [] client.shop
           "get_build_logs" "buildId" "buildId is required and must be an integer"
           (get_build_logs sampleInt client.sampleParse client.sampleRespond [] client.shop)
           (Some {["buildId" := VFloat64 7.5%float]})
           (Some {["buildId" := VFloat64 7%float]}) 7.5%float 7%float).
  - unfold idTools. apply elem_of_cons. right. apply elem_of_cons. left. reflexivity.
  - reflexivity.
  - reflexivity.
  - reflexivity.
  - reflexivity.
  - reflexivity.
Defined.

Lemma list_tools_defaults_witness :
  list_builds sampleInt client.sampleParse client.sampleRespond sampleMarshal []
    client.shop None =
  list_builds sampleInt client.sampleParse client.sampleRespond sampleMarshal []
    client.shop (Some (<["top" := VFloat64 10%float]> {["project" := VString "Shop"]})).
Proof.
  apply (list_tools_defaults sampleInt client.sampleParse client.sampleRespond
           sampleMarshal sampleMarshal sampleMarshal sampleMarshal [] client.shop
           "list_builds"
           (list_builds sampleInt client.sampleParse client.sampleRespond sampleMarshal []
              client.shop)
           None 10%float).
  - unfold listTools. apply elem_of_cons. left. reflexivity.
  - reflexivity.
  - reflexivity.
  - reflexivity.
  - reflexivity.
Defined.

End MainFacts.


(** * From the announced endpoint back to the session *)
Module EndpointFacts.
Import GoStrings GoURL GoJSON mcp Claims mcpServer StringsFacts.

(** A cut at one byte, by cases on the first byte. *)
Lemma Cut_byte sep c s :
  Cut (String c s) (String sep EmptyString) =
    if Ascii.eqb sep c then Some (EmptyString, s)
    else match Cut s (String sep EmptyString) with
         | Some (before, after) => Some (String c before, after)
         | None => None
         end.
Proof.
  cbn [Cut HasPrefix String.length skip]. rewrite HasPrefix_empty.
  destruct (Ascii.eqb sep c); reflexivity.
Qed.

Lemma Cut_absent sep s :
  inCutset sep s = false -> Cut s (String sep EmptyString) = None.
Proof.
  induction s as [|c s IH]; [reflexivity|].
  cbn [inCutset]. intros Hs. apply orb_false_iff in Hs. destruct Hs as [Hc Hs].
  rewrite Cut_byte, Hc, (IH Hs). reflexivity.
Qed.

Lemma noneOf_absent cutset sep s :
  noneOf cutset s = true -> inCutset sep cutset = true -> inCutset sep s = false.
Proof.
  intros Hs Hsep. induction s as [|c s IH]; [reflexivity|].
  cbn [noneOf] in Hs. apply andb_true_iff in Hs. destruct Hs as [Hc Hs].
  cbn [inCutset]. rewrite (IH Hs), orb_false_r.
  destruct (Ascii.eqb_spec sep c) as [->|]; [|reflexivity].
  rewrite Hsep in Hc. discriminate.
Qed.

Lemma Split_uncut s sep : Cut s sep = None -> Split s sep = [s].
Proof.
  intros Hc. unfold Split. destruct (String.length s); [reflexivity|].
  cbn [Split_rounds]. rewrite Hc. reflexivity.
Qed.

Lemma spaced_without_plus s : inCutset "+" s = false -> ParserWords.spaced s = s.
Proof.
  induction s as [|c s IH]; [reflexivity|].
  cbn [inCutset]. intros Hs. apply orb_false_iff in Hs. destruct Hs as [Hc Hs].
  cbn [ParserWords.spaced]. rewrite Ascii.eqb_sym, Hc, (IH Hs). reflexivity.
Qed.

(** The query [sessionId=id] holds [id] under [sessionId]. *)
Lemma sessionId_read id :
  noneOf "&;%+=" id = true ->
  Get (ParseQuery ("sessionId=" +:+ id)) "sessionId" = id.
Proof.
  intros Hid.
  assert (Hamp : inCutset "&" id = false) by (apply (noneOf_absent _ _ _ Hid); reflexivity).
  assert (Hsemi : inCutset ";" id = false) by (apply (noneOf_absent _ _ _ Hid); reflexivity).
  assert (Hpct : inCutset "%" id = false) by (apply (noneOf_absent _ _ _ Hid); reflexivity).
  assert (Hplus : inCutset "+" id = false) by (apply (noneOf_absent _ _ _ Hid); reflexivity).
  assert (Hq : "sessionId=" +:+ id =
               String "s" (String "e" (String "s" (String "s" (String "i" (String "o"
                 (String "n" (String "I" (String "d" (String "=" id))))))))))
    by reflexivity.
  assert (Hcut : forall sep, inCutset sep id = false -> inCutset sep "sessionId=" = false ->
                 Cut ("sessionId=" +:+ id) (String sep EmptyString) = None).
  { intros sep Hs Hl. rewrite Hq. cbn [inCutset] in Hl.
    repeat (apply orb_false_iff in Hl; destruct Hl as [? Hl]).
    repeat (rewrite Cut_byte;
            match goal with H : Ascii.eqb sep _ = false |- _ => rewrite H; clear H end).
    rewrite (Cut_absent _ _ Hs). reflexivity. }
  unfold ParseQuery. rewrite (Split_uncut _ _ (Hcut "&"%char Hamp eq_refl)).
  cbn [omap list_omap]. unfold parsePair, Contains.
  rewrite (Hcut ";"%char Hsemi eq_refl).
  replace (String.eqb ("sessionId=" +:+ id) "") with false by (rewrite Hq; reflexivity).
  replace (Cut ("sessionId=" +:+ id) "=") with (Some ("sessionId", id)).
  - change (QueryUnescape "sessionId") with (Ok (A:=string) "sessionId").
    rewrite (ParsedFacts.QueryUnescape_without_percent id Hpct).
    rewrite (spaced_without_plus _ Hplus). reflexivity.
  - rewrite Hq. rewrite !Cut_byte. reflexivity.
Qed.

(** X23: the endpoint [handleSSE] announces leads back to the session.
    For an identifier without the bytes [&], [;], [%], [+] and [=], as
    a UUID is, the announced endpoint is the path [/message] with the
    query [sessionId=id]; a POST to it, while the session is in the
    directory, is accepted with 202 whenever its body decodes, and the
    request is dispatched on the channel of that session. *)
Theorem endpoint_leads_back (sessions : gmap string Chan) flusher fresh id msgChan body req :
  noneOf "&;%+=" id = true ->
  id <> EmptyString ->
  sessions !! id = Some msgChan ->
  DecodeJSONRPCRequest body = Some req ->
  endpoint id =
    Path (RequestURL (postToEndpoint id body)) +:+ "?"
    +:+ RawQuery (RequestURL (postToEndpoint id body)) /\
  ServeHTTP sessions flusher fresh (postToEndpoint id body) =
    Messaged (accepted, Some (req, msgChan)).
Proof.
  intros Hid Hne Hs Hd. split; [reflexivity|].
  unfold ServeHTTP, handleMessage, postToEndpoint.
  cbn [RequestURL Path HTTPMethod Body]. unfold Query. cbn [RawQuery].
  rewrite (sessionId_read _ Hid).
  change (String.eqb "/message" "/sse") with false.
  change (String.eqb "/message" "/message") with true.
  change (String.eqb "POST" "POST") with true. cbn [negb].
  destruct (String.eqb_spec id "") as [|_]; [contradiction|].
  rewrite Hs, Hd. reflexivity.
Qed.

Lemma endpoint_leads_back_witness :
  ServeHTTP {["3f2b9c1e-0d4a-4c7e-9b1a-5e6f7a8b9c0d" := 7%nat]} true "fresh"
    (postToEndpoint "3f2b9c1e-0d4a-4c7e-9b1a-5e6f7a8b9c0d" (Some listRequest)) =
    Messaged (accepted,
              Some ({| ReqJSONRPC := "2.0"; Method := "tools/list"; Params := None;
                       ReqID := VFloat64 1%float |}, 7%nat)).
Proof.
  apply (endpoint_leads_back {["3f2b9c1e-0d4a-4c7e-9b1a-5e6f7a8b9c0d" := 7%nat]} true "fresh"
           "3f2b9c1e-0d4a-4c7e-9b1a-5e6f7a8b9c0d" 7%nat (Some listRequest)).
  - reflexivity.
  - discriminate.
  - reflexivity.
  - reflexivity.
Defined.

End EndpointFacts.


(** * The identifier of a request and of its response *)
Module IdentifierFacts.
Import GoURL GoJSON mcp Claims mcpServer Steps.

(** A member name that matches [id] matches no other field. *)
Lemma selects_id_only key :
  selects key "id" = true ->
  selects key "jsonrpc" = false /\ selects key "method" = false /\
  selects key "params" = false.
Proof.
  unfold selects. intros Hid. apply String.eqb_eq in Hid. rewrite Hid.
  repeat split; reflexivity.
Qed.

(** Only [null] decodes to nil. *)
Lemma toInterface_nil j : toInterface j = Some VNil <-> j = JNull.
Proof.
  split; [|intros ->; reflexivity].
  destruct j as [| b | [f|] | str | elems | members]; cbn [toInterface]; try discriminate.
  - reflexivity.
  - match goal with |- VSlice <$> ?x = _ -> _ => destruct x end; discriminate.
  - match goal with |- VMap <$> ?x = _ -> _ => destruct x end; discriminate.
Qed.

(** The identifier a decoded request holds is the decoded value of the
    last member of the body that matches [id]. *)
Lemma storeMembers_ReqID members r r' :
  storeMembers storeJSONRPCRequest members r = Some r' ->
  match last (idMembers members) with
  | Some j => toInterface j = Some (ReqID r')
  | None => ReqID r' = ReqID r
  end.
Proof.
  revert r. induction members as [|[key v] members IH]; intros r; cbn [storeMembers idMembers].
  { intros Heq. simplify_eq. reflexivity. }
  destruct (storeJSONRPCRequest key v r) as [r1|] eqn:Hstore; [|discriminate].
  intros Hrest. specialize (IH r1 Hrest). unfold storeJSONRPCRequest in Hstore.
  destruct (selects key "id") eqn:Hid.
  - destruct (selects_id_only key Hid) as (Hj & Hm & Hp).
    rewrite Hj, Hm, Hp in Hstore.
    destruct (toInterface v) as [id|] eqn:Hv; [|discriminate].
    cbn in Hstore. simplify_eq. rewrite last_cons.
    destruct (last (idMembers members)); [exact IH|].
    cbn [ReqID] in IH. rewrite IH. exact Hv.
  - assert (Hkept : ReqID r1 = ReqID r).
    { destruct (selects key "jsonrpc").
      { destruct (storeString v (ReqJSONRPC r)); cbn in Hstore; simplify_eq. reflexivity. }
      destruct (selects key "method").
      { destruct (storeString v (Method r)); cbn in Hstore; simplify_eq. reflexivity. }
      destruct (selects key "params"); simplify_eq; reflexivity. }
    destruct (last (idMembers members)); [exact IH|]. congruence.
Qed.

Lemma Decode_ReqID body req :
  DecodeJSONRPCRequest body = Some req ->
  match requestId body with
  | Some j => toInterface j = Some (ReqID req)
  | None => ReqID req = VNil
  end.
Proof.
  unfold DecodeJSONRPCRequest, Unmarshal, requestId.
  destruct body as [[| b | f | str | elems | members]|]; try discriminate.
  - intros Heq. simplify_eq. reflexivity.
  - intros Hstore. exact (storeMembers_ReqID _ _ _ Hstore).
Qed.

(** C7, as stated, fails: the bytes of the identifier are not kept.
    A [tools/list] request with the identifier [null] is answered, and
    the response has no member [id] at all.  The identifiers
    9007199254740993 and 9007199254740992 are the same [float64], so
    the two requests are decoded into the same request and get the same
    response, which cannot have the bytes of both. *)
Lemma identifier_bytes_not_kept :
  (exists req response,
     DecodeJSONRPCRequest (Some (listBody JNull)) = Some req /\
     requestId (Some (listBody JNull)) = Some JNull /\
     sent (processRequest twoTools req) = Some response /\
     hasID response = false) /\
  9007199254740993 <> 9007199254740992 /\
  integerToken 9007199254740993 = integerToken 9007199254740992 /\
  DecodeJSONRPCRequest (Some (listBody (integerToken 9007199254740993))) =
  DecodeJSONRPCRequest (Some (listBody (integerToken 9007199254740992))).
Proof.
  split; [|split; [lia|split; reflexivity]].
  eexists _, _. split; [reflexivity|]. split; [reflexivity|].
  split; reflexivity.
Qed.

(** C7, amended: whenever a request decoded from a body gets a
    response, in every branch, the identifier of the response is the
    value [encoding/json] decoded from the identifier of the request -
    the last member of the body whose name matches [id] - and nil when
    the body has none.  The marshaled response has a member [id]
    exactly when that value is not nil: unless the request has no
    identifier or the identifier [null]. *)
Theorem response_id_is_decoded_id s body req response :
  DecodeJSONRPCRequest body = Some req ->
  sent (processRequest s req) = Some response ->
  match requestId body with
  | Some j => toInterface j = Some (ID response)
  | None => ID response = VNil
  end /\
  (hasID response = false <-> requestId body = None \/ requestId body = Some JNull).
Proof.
  intros Hd Hs. rewrite (DispatcherFacts.ID_copied _ _ _ Hs).
  pose proof (Decode_ReqID _ _ Hd) as Hid. split; [exact Hid|].
  unfold hasID. rewrite (DispatcherFacts.ID_copied _ _ _ Hs).
  destruct (requestId body) as [j|].
  - split.
    + intros Hnil. right. f_equal. apply toInterface_nil.
      rewrite Hid. destruct (ReqID req); try discriminate. reflexivity.
    + intros [Hn|Hn]; [discriminate|]. simplify_eq. cbn in Hid. simplify_eq.
      rewrite <- Hid. reflexivity.
  - rewrite Hid. split; auto.
Qed.

Lemma response_id_is_decoded_id_witness :
  exists response,
    sent (processRequest twoTools
            {| ReqJSONRPC := "2.0"; Method := "tools/list"; Params := None;
               ReqID := VFloat64 1%float |}) = Some response /\
    toInterface (JNumber (Some 1%float)) = Some (ID response) /\
    hasID response = true.
Proof.
  eexists. split; [reflexivity|].
  destruct (response_id_is_decoded_id twoTools (Some listRequest)
              {| ReqJSONRPC := "2.0"; Method := "tools/list"; Params := None;
                 ReqID := VFloat64 1%float |} _ eq_refl eq_refl) as [Hid Hhas].
  split; [exact Hid|reflexivity].
Defined.

End IdentifierFacts.
